(** * Classroom / session lifecycle service

    A shallow embedding of [ClassRoomService] (the service class found in
    [src/src/app.ts]) over an explicit model of the Mongoose collections
    it talks to, and of [SocketService], the gateway that calls it,
    followed by the properties of the specification that can be settled
    on them and by further properties read off the code. *)

From Stdlib Require Import ZArith String List Bool.
From stdpp Require Import gmap strings list fin_maps.
Import ListNotations.

Local Open Scope string_scope.
Local Open Scope list_scope.

(** ** Data model *)

(** [UserRole]: the payloads carry ['teacher'] or ['student']. *)
Inductive UserRole := TEACHER | STUDENT.

(** [EventType], as named by the test-suite and the specification. *)
Inductive EventType := JOIN | LEAVE | START | END.

#[global] Instance UserRole_eq_dec : EqDecision UserRole.
Proof. solve_decision. Defined.

#[global] Instance EventType_eq_dec : EqDecision EventType.
Proof. solve_decision. Defined.

(** One slot of a participant array.  A slot holds the hexadecimal string
    of an ObjectId, or nothing at all: [joinSessionViaSessionList] pushes
    [participant.id], which is [undefined] for a payload without that
    field. *)
Abbreviation Ref := (option string).

(** A Date, as milliseconds since the epoch. *)
Abbreviation Date := Z.

(** A stored Participant row. *)
Record Participant := mkParticipant {
  p_id    : string;       (* _id *)
  p_name  : string;       (* name *)
  p_email : string;       (* email *)
  p_role  : UserRole      (* role *)
}.

(** [IParticipants] as it arrives in a request: every identity field is
    whatever the client sent, possibly nothing. *)
Record IParticipants := mkIParticipants {
  pl__id   : option string;   (* participant._id *)
  pl_id    : option string;   (* participant.id  *)
  pl_name  : string;          (* participant.name *)
  pl_email : string;          (* participant.email *)
  pl_role  : UserRole         (* participant.role *)
}.

(** [IJoinClassRoom]. *)
Record IJoinClassRoom := mkIJoinClassRoom {
  roomId      : string;
  participant : IParticipants
}.

(** A Classroom document (its [_id] is the key it is stored under). *)
Record ClassRoom := mkClassRoom {
  c_roomId           : string;        (* roomId, the generated uuid *)
  c_name             : string;        (* name *)
  isActive           : bool;
  teacherParticipant : list Ref;
  studentParticipant : list Ref;
  participantHistory : list Ref;
  c_eventLog         : list string    (* eventLog: ids of EventLog rows *)
}.

(** A ClassSession document, after [sessionSchema].  The [eventLog] array
    is the one the test fixtures put on a session. *)
Record ClassSession := mkClassSession {
  startedAt           : option Date;
  endedAt             : option Date;
  participantsHistory : list Ref;
  currentParticipants : list Ref;
  classRoomId         : option string;
  s_eventLog          : list string   (* eventLog *)
}.

(** An EventLog row. *)
Record EventLog := mkEventLog {
  e_type        : EventType;
  e_participant : string;      (* reference to the acting participant *)
  e_timestamp   : Date
}.

(** The database: classrooms, sessions and event rows are only ever
    fetched by [_id]; Participant rows are searched by email, first match
    in insertion order. *)
Record Store := mkStore {
  classRooms    : gmap string ClassRoom;
  classSessions : gmap string ClassSession;
  participants  : list Participant;
  eventLogs     : gmap string EventLog
}.

(** ** Errors

    Every failure of the service is [throw new Error(message)]. *)
Inductive ServiceError :=
| ClassRoomNotFound
| InactiveRoom
| DuplicateParticipant
| SessionDoesNotExist
| SessionNotFound
| MissingAssociation
| AlreadyInSession.

Definition errorMessage (e : ServiceError) : string :=
  match e with
  | ClassRoomNotFound    => "Class Room does not exist"
  | InactiveRoom         => "Class is not active. you cannot join."
  | DuplicateParticipant => "Participant already in classroom"
  | SessionDoesNotExist  => "Session does not exist"
  | SessionNotFound      => "Session not found"
  | MissingAssociation   => "Classroom not associated with session"
  | AlreadyInSession     => "User is already in this session somewhere"
  end.

Definition Result (A : Type) : Type := (ServiceError + A)%type.

Definition throw {A : Type} (e : ServiceError) : Result A := inl e.
Definition ok {A : Type} (a : A) : Result A := inr a.

(** [if (!x) throw new Error(..)] on the result of a query. *)
Definition orThrow {A : Type} (o : option A) (e : ServiceError) : Result A :=
  match o with
  | Some a => ok a
  | None => throw e
  end.

(** [if (cond) throw new Error(..)]. *)
Definition throwIf (cond : bool) (e : ServiceError) : Result unit :=
  if cond then throw e else ok tt.

(** Sequencing: a thrown error ends the method. *)
Notation "'run' x <- m ; k" :=
  (match m with inl err => inl err | inr x => k end)
  (at level 10, x name, m at level 100, k at level 200, only parsing).

(** ** The model layer *)

Definition ClassRoom_findById (db : Store) (key : string) : option ClassRoom :=
  classRooms db !! key.

Definition ClassRoom_save (db : Store) (key : string) (c : ClassRoom) : Store :=
  mkStore (<[key := c]> (classRooms db)) (classSessions db)
          (participants db) (eventLogs db).

Definition ClassSession_findById (db : Store) (key : string) : option ClassSession :=
  classSessions db !! key.

Definition ClassSession_save (db : Store) (key : string) (s : ClassSession) : Store :=
  mkStore (classRooms db) (<[key := s]> (classSessions db))
          (participants db) (eventLogs db).

(** [Participant.findOne({ email })]. *)
Definition Participant_findOne (db : Store) (mail : string) : option Participant :=
  find (fun p => String.eqb (p_email p) mail) (participants db).

(** Saving a freshly built Participant document appends a row. *)
Definition Participant_save (db : Store) (p : Participant) : Store :=
  mkStore (classRooms db) (classSessions db)
          (participants db ++ [p]) (eventLogs db).

(** [Participant.create(participant)]: the row built from a request
    payload keeps the [_id] the payload brings, and receives the generated
    [oid] when it brings none. *)
Definition Participant_create (oid : string) (participant : IParticipants)
  : Participant :=
  mkParticipant (default oid (pl__id participant)) (pl_name participant)
                (pl_email participant) (pl_role participant).

(** [a == b] and [a === b] between array slots and ids.  The slots are
    taken as what the interfaces and the callbacks declare them to be,
    strings; on strings and [undefined] the two comparisons agree, and
    are equality. *)
Definition jsEq (a b : Ref) : bool := bool_decide (a = b).

(** [array.push(x)]. *)
Definition push {A : Type} (l : list A) (x : A) : list A := l ++ [x].

Definition set_teacherParticipant (c : ClassRoom) (l : list Ref) : ClassRoom :=
  mkClassRoom (c_roomId c) (c_name c) (isActive c) l
              (studentParticipant c) (participantHistory c) (c_eventLog c).

Definition set_studentParticipant (c : ClassRoom) (l : list Ref) : ClassRoom :=
  mkClassRoom (c_roomId c) (c_name c) (isActive c) (teacherParticipant c)
              l (participantHistory c) (c_eventLog c).

Definition set_participantHistory (c : ClassRoom) (l : list Ref) : ClassRoom :=
  mkClassRoom (c_roomId c) (c_name c) (isActive c) (teacherParticipant c)
              (studentParticipant c) l (c_eventLog c).

Definition set_currentParticipants (s : ClassSession) (l : list Ref) : ClassSession :=
  mkClassSession (startedAt s) (endedAt s) (participantsHistory s) l
                 (classRoomId s) (s_eventLog s).

Definition set_participantsHistory (s : ClassSession) (l : list Ref) : ClassSession :=
  mkClassSession (startedAt s) (endedAt s) l (currentParticipants s)
                 (classRoomId s) (s_eventLog s).

Definition set_endedAt (s : ClassSession) (d : option Date) : ClassSession :=
  mkClassSession (startedAt s) d (participantsHistory s) (currentParticipants s)
                 (classRoomId s) (s_eventLog s).

(** ** The service *)

Section Service.

(** [ClassRoom.findParticipantByEmail], a static of the Classroom model
    whose body is not part of the sources at hand.  It is a query against
    the database that receives the email and nothing else; only the
    truthiness of its answer is used. *)
Variable findParticipantByEmail : Store -> string -> bool.

(** [joinClassroom(payload)].  [oid] is the ObjectId that a Participant
    document built by this call receives. *)
Definition joinClassroom (db : Store) (oid : string) (payload : IJoinClassRoom)
  : Result (Participant * Store) :=
  let roomId := roomId payload in
  let name := pl_name (participant payload) in
  let role := pl_role (participant payload) in
  let email := pl_email (participant payload) in
  run classroom <- orThrow (ClassRoom_findById db roomId) ClassRoomNotFound;
  run _checked <- throwIf (bool_decide (role = STUDENT) && negb (isActive classroom))
                          InactiveRoom;
  let getParticipant := Participant_findOne db email in
  run _checked <- throwIf (match getParticipant with
                           | Some _ => findParticipantByEmail db email
                           | None => false
                           end) DuplicateParticipant;
  let '(getParticipant, db) :=
    match getParticipant with
    | Some p => (p, db)
    | None =>
        let newParticipant := mkParticipant oid name email role in
        (newParticipant, Participant_save db newParticipant)
    end in
  let classroom :=
    if bool_decide (role = TEACHER)
    then set_teacherParticipant classroom
           (push (teacherParticipant classroom) (Some (p_id getParticipant)))
    else set_studentParticipant classroom
           (push (studentParticipant classroom) (Some (p_id getParticipant))) in
  let classroom :=
    set_participantHistory classroom
      (push (participantHistory classroom) (Some (p_id getParticipant))) in
  let db := ClassRoom_save db roomId classroom in
  ok (getParticipant, db).

End Service.

(** [startClass(roomId, teacherId)].  [now] is what [new Date()] reads and
    [oid] the ObjectId of the new session document.  The method has no
    [throw] and reads nothing from the database. *)
Definition startClass (db : Store) (now : Date) (oid : string)
    (roomId teacherId : string) : (string * ClassSession) * Store :=
  let session :=
    {| currentParticipants := [Some teacherId];
       participantsHistory := [Some teacherId];
       classRoomId := Some roomId;
       startedAt := Some now;
       endedAt := None;
       s_eventLog := [] |} in
  let db := ClassSession_save db oid session in
  ((oid, session), db).

(** [endClass(sessionId)]. *)
Definition endClass (db : Store) (now : Date) (sessionId : string)
  : Result (ClassSession * Store) :=
  run session <- orThrow (ClassSession_findById db sessionId) SessionDoesNotExist;
  let session := set_currentParticipants session [] in
  let session := set_endedAt session (Some now) in
  let db := ClassSession_save db sessionId session in
  ok (session, db).

(** [leaveClassSession(sessionId, userId, role)]. *)
Definition leaveClassSession (db : Store) (now : Date)
    (sessionId userId : string) (role : UserRole)
  : Result (ClassSession * Store) :=
  run session <- orThrow (ClassSession_findById db sessionId) SessionDoesNotExist;
  let session :=
    set_currentParticipants session
      (List.filter (fun participant => negb (jsEq participant (Some userId)))
              (currentParticipants session)) in
  let session :=
    if bool_decide (role = TEACHER)
    then set_currentParticipants (set_endedAt session (Some now)) []
    else session in
  let db := ClassSession_save db sessionId session in
  ok (session, db).

(** [leaveClassRoom(roomId, userId, role)]: the classroom is changed in
    memory and returned; there is no [save]. *)
Definition leaveClassRoom (db : Store) (roomId userId : string) (role : UserRole)
  : Result ClassRoom :=
  run classroom <- orThrow (ClassRoom_findById db roomId) SessionDoesNotExist;
  let classroom :=
    if bool_decide (role = STUDENT)
    then set_studentParticipant classroom
           (List.filter (fun participant => jsEq participant (Some userId))
                   (studentParticipant classroom))
    else set_teacherParticipant classroom
           (List.filter (fun participant => jsEq participant (Some userId))
                   (teacherParticipant classroom)) in
  ok classroom.

(** [ClassSession.findById(sessionId).populate('classRoomId')]: the
    session, and the classroom its reference resolves to (with its key),
    if any. *)
Definition ClassSession_findById_populated (db : Store) (key : string)
  : option (ClassSession * option (string * ClassRoom)) :=
  match ClassSession_findById db key with
  | None => None
  | Some session =>
      Some (session,
            match classRoomId session with
            | None => None
            | Some roomKey =>
                match ClassRoom_findById db roomKey with
                | None => None
                | Some classRoom => Some (roomKey, classRoom)
                end
            end)
  end.

(** [joinSessionViaSessionList(sessionId, participant)].  The method
    returns [{ getParticipant, classRoomId: classRoom.id }]. *)
Definition joinSessionViaSessionList (db : Store) (oid : string)
    (sessionId : string) (participant : IParticipants)
  : Result ((Participant * string) * Store) :=
  run found <- orThrow (ClassSession_findById_populated db sessionId) SessionNotFound;
  let session := fst found in
  run populated <- orThrow (snd found) MissingAssociation;
  let roomKey := fst populated in
  let classRoom := snd populated in
  match Participant_findOne db (pl_email participant) with
  | None =>
      let getParticipant := Participant_create oid participant in
      let db := Participant_save db getParticipant in
      let classRoom :=
        set_studentParticipant classRoom
          (push (studentParticipant classRoom) (pl_id participant)) in
      let classRoom :=
        set_participantHistory classRoom
          (push (participantHistory classRoom) (pl_id participant)) in
      let session :=
        set_currentParticipants session
          (push (currentParticipants session) (pl_id participant)) in
      let session :=
        set_participantsHistory session
          (push (participantsHistory session) (pl_id participant)) in
      let db := ClassSession_save (ClassRoom_save db roomKey classRoom)
                                  sessionId session in
      ok ((getParticipant, roomKey), db)
  | Some getParticipant =>
      let alreadyInSession :=
        existsb (fun p => jsEq p (pl__id participant))
                (currentParticipants session) in
      run _checked <- throwIf alreadyInSession AlreadyInSession;
      let alreadyInClassroom :=
        existsb (fun s => jsEq s (pl__id participant))
                (studentParticipant classRoom) in
      let db :=
        if negb alreadyInClassroom
        then
          let classRoom :=
            set_studentParticipant classRoom
              (push (studentParticipant classRoom) (pl_id participant)) in
          let classRoom :=
            set_participantHistory classRoom
              (push (participantHistory classRoom) (pl_id participant)) in
          ClassRoom_save db roomKey classRoom
        else db in
      let session :=
        set_currentParticipants session
          (push (currentParticipants session) (pl_id participant)) in
      let session :=
        set_participantsHistory session
          (push (participantsHistory session) (pl_id participant)) in
      let db := ClassSession_save db sessionId session in
      ok ((getParticipant, roomKey), db)
  end.

(** ** Parts of the repository that are not among the sources *)

(** [Participant.findById], used when a reference is populated. *)
Definition Participant_findById (db : Store) (key : string) : option Participant :=
  List.find (fun p => String.eqb (p_id p) key) (participants db).

(** Whether a participant whose email is [mail] sits in one of the two
    current lists of classroom [c]. *)
Definition currentMemberByEmail (db : Store) (c : ClassRoom) (mail : string) : bool :=
  List.existsb
    (fun slot =>
       match slot with
       | Some key =>
           List.existsb
             (fun p => String.eqb (p_id p) key && String.eqb (p_email p) mail)
             (participants db)
       | None => false
       end)
    (teacherParticipant c ++ studentParticipant c).

(** Modelled from the spec: [ClassRoom.findParticipantByEmail], the static
    of the Classroom model, whose file is not among the sources.  The spec
    calls it "a membership-by-email query" that tells "whether that email
    is already a member" of a classroom, run "against current membership,
    not history".  The one call site hands it the email alone, so it is
    modelled as a search through the current lists of every classroom. *)
Definition ClassRoom_findParticipantByEmail (db : Store) (mail : string) : bool :=
  List.existsb (fun entry => currentMemberByEmail db (snd entry) mail)
               (map_to_list (classRooms db)).

(** [HttpStatusCode], with the numbers the tests compare against. *)
Inductive HttpStatusCode := HTTP_OK | HTTP_CREATED | HTTP_NOT_FOUND.


(** What [serviceResponse] builds: [{ statusCode, data, message }]. *)
Record ServiceResponse (A : Type) := mkServiceResponse {
  statusCode : HttpStatusCode;
  data       : option A;
  message    : option string
}.
Arguments mkServiceResponse {A} _ _ _.
Arguments statusCode {A} _.
Arguments data {A} _.
Arguments message {A} _.

(** One line of a report: [{ type, name, role, timestamp }]. *)
Record ReportEvent := mkReportEvent {
  re_type      : EventType;
  re_name      : string;
  re_role      : UserRole;
  re_timestamp : Date
}.

(** One session of a report: [{ startedAt, endedAt, eventLog }]. *)
Record ReportSession := mkReportSession {
  rs_startedAt : option Date;
  rs_endedAt   : option Date;
  rs_eventLog  : list ReportEvent
}.

(** The [classRoom] object of a report. *)
Record ReportClassRoom := mkReportClassRoom {
  rc_id       : string;
  rc_roomId   : string;
  rc_name     : string;
  rc_eventLog : list ReportEvent;
  rc_sessions : list ReportSession
}.

(** What a method that can run into a TypeError does: it returns, or the
    TypeError leaves it. *)
Inductive Completion (A : Type) : Type :=
| Returned (a : A)
| TypeErrorThrown.
Arguments Returned {A} _.
Arguments TypeErrorThrown {A}.

(** One step after another: a TypeError in the first leaves the second
    undone. *)
Definition andThen {A B : Type} (c : Completion A) (k : A -> Completion B)
  : Completion B :=
  match c with
  | Returned a => k a
  | TypeErrorThrown => TypeErrorThrown
  end.

(** [array.map(f)] with a callback that can throw: the elements in
    order, up to the first TypeError. *)
Fixpoint mapThrowing {A B : Type} (f : A -> Completion B) (l : list A)
  : Completion (list B) :=
  match l with
  | [] => Returned []
  | x :: rest =>
      andThen (f x) (fun y =>
      andThen (mapThrowing f rest) (fun ys => Returned (y :: ys)))
  end.

(** An event row of a populated log, its own [participant] populated:
    [null] when that reference resolves to no row. *)
Record PopulatedEvent := mkPopulatedEvent {
  pe_type        : EventType;
  pe_participant : option Participant;
  pe_timestamp   : Date
}.

Definition populateEvent (db : Store) (key : string) : option PopulatedEvent :=
  match eventLogs db !! key with
  | None => None
  | Some event =>
      Some (mkPopulatedEvent (e_type event)
              (Participant_findById db (e_participant event))
              (e_timestamp event))
  end.

(** An event log populated: an id that names no row is not in the
    populated array. *)
Definition populateEventLog (db : Store) (keys : list string)
  : list PopulatedEvent :=
  omap (populateEvent db) keys.

(** The line of one event,
    [{ type, name: participant.name, role: participant.role, timestamp }].
    Reading the name of a participant that is [null] is a TypeError. *)
Definition reportLine (event : PopulatedEvent) : Completion ReportEvent :=
  match pe_participant event with
  | Some actor =>
      Returned (mkReportEvent (pe_type event) (p_name actor) (p_role actor)
                              (pe_timestamp event))
  | None => TypeErrorThrown
  end.

(** Whether the actor of the event resolved. *)
Definition hasActor (event : PopulatedEvent) : bool :=
  match pe_participant event with
  | Some _ => true
  | None => false
  end.

(** Modelled from the spec: an event log "expanded to include actor
    name/role", each event "shown as [{type, name, role, timestamp}]".
    The spec wants the method "never raising" and its entries to "carry
    resolved name/role", so a line is made for the events whose actor
    resolved and for no other (the spec does not speak of dangling
    references). *)
Definition expandEventLog (db : Store) (keys : list string)
  : Completion (list ReportEvent) :=
  mapThrowing reportLine (List.filter hasActor (populateEventLog db keys)).

(** "Fetch all Sessions for that room": the sessions whose owning
    reference is [roomKey]. *)
Definition ClassSession_findByRoom (db : Store) (roomKey : string)
  : gmap string ClassSession :=
  filter (fun entry => classRoomId (snd entry) = Some roomKey) (classSessions db).

(** Modelled from the spec: a session "shown as
    [{startedAt, endedAt, eventLog}]", "with its own expanded event
    log". *)
Definition reportSession (db : Store) (session : ClassSession)
  : Completion ReportSession :=
  andThen (expandEventLog db (s_eventLog session)) (fun lines =>
  Returned (mkReportSession (startedAt session) (endedAt session) lines)).

(** Modelled from the spec: [getClassRoomReportById(roomId)], the
    reporting method the tests call and the sources lack.  The spec: fetch
    the classroom with its event log expanded, answer not-found (a result,
    not an exception) with message "Class room not found" when it does not
    exist; fetch all sessions of the room, each with its expanded event
    log; report the classroom's identity and name, its events as
    [{type, name, role, timestamp}] and its sessions as
    [{startedAt, endedAt, eventLog}]. *)
Definition getClassRoomReportById (db : Store) (roomKey : string)
  : Completion (ServiceResponse ReportClassRoom) :=
  match ClassRoom_findById db roomKey with
  | None =>
      Returned (mkServiceResponse HTTP_NOT_FOUND None (Some "Class room not found"))
  | Some classRoom =>
      let sessions := map snd (map_to_list (ClassSession_findByRoom db roomKey)) in
      andThen (expandEventLog db (c_eventLog classRoom)) (fun lines =>
      andThen (mapThrowing (reportSession db) sessions) (fun shown =>
      Returned
        (mkServiceResponse HTTP_OK
           (Some {| rc_id := roomKey;
                    rc_roomId := c_roomId classRoom;
                    rc_name := c_name classRoom;
                    rc_eventLog := lines;
                    rc_sessions := shown |})
           None)))
  end.

(** ** The earlier draft of the service

    [src/unnamed/part_000] is an older copy of the same class: it lacks
    [joinSessionViaSessionList], and two of its methods differ from the
    ones above. *)
Module Earlier.

(** [startClass(roomId, teacherId)] of the draft passes neither
    [participantsHistory] nor [startedAt]; the schema fills in an empty
    array and its default date, [loaded], computed once when the schema
    was built. *)
Definition startClass (db : Store) (loaded : Date) (oid : string)
    (roomId teacherId : string) : (string * ClassSession) * Store :=
  let session :=
    {| currentParticipants := [Some teacherId];
       participantsHistory := [];
       classRoomId := Some roomId;
       startedAt := Some loaded;
       endedAt := None;
       s_eventLog := [] |} in
  let db := ClassSession_save db oid session in
  ((oid, session), db).

(** [participant === userId] in the filter of the draft's
    [leaveClassSession].  [sessionSchema] makes every slot of
    [currentParticipants] an ObjectId, and [userId] is a string: two
    values of different types are never strictly equal, so the
    comparison is false whatever the slot holds. *)
Definition strictEqUserId (participant : Ref) (userId : string) : bool := false.

(** [leaveClassSession(sessionId, userId)] of the draft has no role. *)
Definition leaveClassSession (db : Store) (now : Date) (sessionId userId : string)
  : Result (ClassSession * Store) :=
  run session <- orThrow (ClassSession_findById db sessionId) SessionDoesNotExist;
  let session :=
    set_currentParticipants session
      (List.filter (fun participant => strictEqUserId participant userId)
                   (currentParticipants session)) in
  let session := set_endedAt session (Some now) in
  let db := ClassSession_save db sessionId session in
  ok (session, db).

End Earlier.

(** ** The rest of the service *)

(** [ICreateClassRoom]. *)
Record ICreateClassRoom := mkICreateClassRoom {
  cr_name : string
}.

Section Create.

(** The default the Classroom schema gives [isActive]; the schema is not
    among the sources.  Its arrays start empty, as Mongoose arrays do. *)
Variable isActiveDefault : bool.

(** [create(payload)].  [oid] is the [_id] of the new document and [uuid]
    what [uuid()] returns.  The answer is
    [serviceResponse(CREATED, { roomId: _id }, 'Class room created')]. *)
Definition create (db : Store) (oid uuid : string) (payload : ICreateClassRoom)
  : ServiceResponse string * Store :=
  let name := cr_name payload in
  let classroom :=
    {| c_roomId := uuid; c_name := name; isActive := isActiveDefault;
       teacherParticipant := []; studentParticipant := [];
       participantHistory := []; c_eventLog := [] |} in
  let db := ClassRoom_save db oid classroom in
  (mkServiceResponse HTTP_CREATED (Some oid) (Some "Class room created"), db).

End Create.

(** [!x] of an array is [false]: an array is truthy, empty or not. *)
Definition truthyArray {A : Type} (l : list A) : bool := true.

(** [.populate('classRoomId')] on one session. *)
Definition populateClassRoomId (db : Store) (session : ClassSession)
  : option (string * ClassRoom) :=
  match classRoomId session with
  | None => None
  | Some roomKey =>
      match ClassRoom_findById db roomKey with
      | None => None
      | Some classRoom => Some (roomKey, classRoom)
      end
  end.

(** A session as the two list queries return it: its [_id], its fields,
    and its populated classroom. *)
Definition ListedSession : Type :=
  (string * ClassSession * option (string * ClassRoom))%type.

Definition listed (db : Store) (entry : string * ClassSession) : ListedSession :=
  (fst entry, snd entry, populateClassRoomId db (snd entry)).

(** [activeSessionsList()]: [find({ endedAt: { $exists: false } })].  The
    order in which the store lists the sessions is not modelled. *)
Definition activeSessionsList (db : Store) : Result (list ListedSession) :=
  let session :=
    map (listed db)
        (map_to_list
           (filter (fun entry : string * ClassSession => endedAt (snd entry) = None)
                   (classSessions db))) in
  run _checked <- throwIf (negb (truthyArray session)) SessionDoesNotExist;
  ok session.

(** [activeSessionsListWithRoomId(roomId)]:
    [find({ endedAt: { $exists: false }, classRoomId: roomId })]. *)
Definition activeSessionsListWithRoomId (db : Store) (roomId : string)
  : Result (list ListedSession) :=
  let session :=
    map (listed db)
        (map_to_list
           (filter (fun entry : string * ClassSession =>
                      endedAt (snd entry) = None /\
                      classRoomId (snd entry) = Some roomId)
                   (classSessions db))) in
  run _checked <- throwIf (negb (truthyArray session)) SessionDoesNotExist;
  ok session.

(** [.populate(path)] on an array of participant references: the rows
    the slots resolve to, in order; a slot that resolves to nothing is
    dropped, which is what Mongoose does with an array. *)
Definition populateParticipants (db : Store) (slots : list Ref) : list Participant :=
  omap (fun slot : Ref =>
          match slot with
          | Some key => Participant_findById db key
          | None => None
          end) slots.

(** A classroom with its two current lists populated. *)
Record PopulatedClassRoom := mkPopulatedClassRoom {
  pc_classRoom          : ClassRoom;
  pc_studentParticipant : list Participant;
  pc_teacherParticipant : list Participant
}.

(** [findByClassRoomId(roomId)]. *)
Definition findByClassRoomId (db : Store) (roomId : string)
  : option PopulatedClassRoom :=
  match ClassRoom_findById db roomId with
  | None => None
  | Some classRoom =>
      Some (mkPopulatedClassRoom classRoom
              (populateParticipants db (studentParticipant classRoom))
              (populateParticipants db (teacherParticipant classRoom)))
  end.

(** The object [findByClassSession] returns: the lean session with its
    populated participants and classroom, and the three fields the method
    adds to it. *)
Record SessionView := mkSessionView {
  sv_session             : ClassSession;
  sv_currentParticipants : list Participant;
  sv_classRoom           : string * ClassRoom;
  sv_teacherParticipant  : list Participant;
  sv_studentParticipant  : list Participant;
  sv_name                : string
}.

(** One round of the loop of [findByClassSession]: the participant is
    pushed on the teachers or on the students. *)
Definition sortParticipant (lists : list Participant * list Participant)
    (participant : Participant) : list Participant * list Participant :=
  if bool_decide (p_role participant = TEACHER)
  then (push (fst lists) participant, snd lists)
  else (fst lists, push (snd lists) participant).

(** [findByClassSession(sessionId)].  [null] for a session that does not
    exist; [session.classRoomId.name] is a TypeError when the classroom
    reference resolved to nothing. *)
Definition findByClassSession (db : Store) (sessionId : string)
  : Completion (option SessionView) :=
  match ClassSession_findById db sessionId with
  | None => Returned None
  | Some session =>
      let current := populateParticipants db (currentParticipants session) in
      let lists := fold_left sortParticipant current ([], []) in
      let teacherParticipant := fst lists in
      let studentParticipant := snd lists in
      match populateClassRoomId db session with
      | None => TypeErrorThrown
      | Some classRoom =>
          Returned
            (Some {| sv_session := session;
                     sv_currentParticipants := current;
                     sv_classRoom := classRoom;
                     sv_teacherParticipant := teacherParticipant;
                     sv_studentParticipant := studentParticipant;
                     sv_name := c_name (snd classRoom) |})
      end
  end.

(** ** Runs of the service *)

(** The database before any call. *)
Definition emptyStore : Store :=
  {| classRooms := ∅; classSessions := ∅; participants := []; eventLogs := ∅ |}.

Section Runs.

Variable findParticipantByEmail : Store -> string -> bool.
Variable isActiveDefault : bool.

(** One successful call of a method that writes.  The ObjectId of a new
    classroom or session is one that is not in use. *)
Inductive step (db db' : Store) : Prop :=
| step_create oid uuid payload :
    ClassRoom_findById db oid = None ->
    snd (create isActiveDefault db oid uuid payload) = db' ->
    step db db'
| step_joinClassroom oid payload p :
    joinClassroom findParticipantByEmail db oid payload = inr (p, db') ->
    step db db'
| step_startClass now oid roomId teacherId :
    ClassSession_findById db oid = None ->
    snd (startClass db now oid roomId teacherId) = db' ->
    step db db'
| step_endClass now sessionId session :
    endClass db now sessionId = inr (session, db') ->
    step db db'
| step_leaveClassSession now sessionId userId role session :
    leaveClassSession db now sessionId userId role = inr (session, db') ->
    step db db'
| step_joinSessionViaSessionList oid sessionId payload result :
    joinSessionViaSessionList db oid sessionId payload = inr (result, db') ->
    step db db'.

End Runs.

(** Every current slot of a classroom or a session is in its history. *)
Definition currentInHistory (db : Store) : Prop :=
  (forall key c, ClassRoom_findById db key = Some c ->
     incl (teacherParticipant c ++ studentParticipant c) (participantHistory c)) /\
  (forall key s, ClassSession_findById db key = Some s ->
     incl (currentParticipants s) (participantsHistory s)).

(** [db'] keeps what [db] has: every classroom and session is still there
    with the same identity, a history that has only grown at its end, and
    an end date if it had one; no Participant row is lost. *)
Definition keeps (db db' : Store) : Prop :=
  (forall key c, ClassRoom_findById db key = Some c ->
     exists c', ClassRoom_findById db' key = Some c' /\
       c_roomId c' = c_roomId c /\ c_name c' = c_name c /\
       isActive c' = isActive c /\
       participantHistory c `prefix_of` participantHistory c') /\
  (forall key s, ClassSession_findById db key = Some s ->
     exists s', ClassSession_findById db' key = Some s' /\
       startedAt s' = startedAt s /\ classRoomId s' = classRoomId s /\
       participantsHistory s `prefix_of` participantsHistory s' /\
       (endedAt s <> None -> endedAt s' <> None)) /\
  participants db `prefix_of` participants db'.

(** ** The realtime gateway

    [SocketService], the caller of the service.  It calls
    [leaveClassSession] with two arguments and so goes with the draft of
    the service, the one whose [leaveClassSession] takes two; the other
    methods it calls read the same in both copies, but for [startClass].
    The two handlers that leave a session are also given over whichever
    [leaveClassSession] is bound.  A handler is run on the database and
    on the state of the socket it serves, and yields both together with
    what it emitted, in order. *)

(** [socket.data]. *)
Record SocketData := mkSocketData {
  sd_userId    : option string;
  sd_roomId    : option string;
  sd_role      : option UserRole;
  sd_sessionId : option string
}.

(** A socket: its data and the rooms it has joined. *)
Record Socket := mkSocket {
  sk_data  : SocketData;
  sk_rooms : list string
}.

(** Whom an emission goes to: [socket.emit], [io.to(room).emit],
    [socket.to(room).emit]. *)
Inductive Target :=
| ToSocket
| ToRoom (room : string)
| ToRoomButSender (room : string).

(** What is emitted. *)
Inductive Body :=
| MessageBody (text : string)
| ClassroomBody (classroom : option PopulatedClassRoom)
| JoinSuccessBody (text : string) (classroom : option PopulatedClassRoom)
| SessionBody (key : string) (session : ClassSession)
| StartedBody (text : string) (startedBy : string)
| EndedBody (text : string) (endedBy : string).

Record Emission := mkEmission {
  em_target : Target;
  em_event  : string;
  em_body   : Body
}.

(** The truthiness of a field that holds a string or nothing. *)
Definition truthy (field : option string) : bool :=
  match field with
  | Some s => negb (String.eqb s "")
  | None => false
  end.

(** [emitError(socket, message)]. *)
Definition emitError (text : string) : Emission :=
  mkEmission ToSocket "error" (MessageBody text).

(** [validateTeacherPermission(socket)]. *)
Definition validateTeacherPermission (socket : Socket) : bool :=
  truthy (sd_roomId (sk_data socket)) &&
  truthy (sd_userId (sk_data socket)) &&
  bool_decide (sd_role (sk_data socket) = Some TEACHER).

(** [clearSocketData(socket)]: three [delete]s. *)
Definition clearSocketData (socket : Socket) : Socket :=
  mkSocket (mkSocketData None None None (sd_sessionId (sk_data socket)))
           (sk_rooms socket).

(** [socket.join(room)] and [socket.leave(room)]. *)
Definition socketJoin (socket : Socket) (room : string) : Socket :=
  mkSocket (sk_data socket) (sk_rooms socket ++ [room]).

Definition socketLeave (socket : Socket) (room : string) : Socket :=
  mkSocket (sk_data socket)
           (List.filter (fun r => negb (String.eqb r room)) (sk_rooms socket)).

(** A [leaveClassSession] as the gateway calls it: with a session id and
    a user id, and no role. *)
Definition BoundLeave : Type :=
  Store -> Date -> string -> string -> Result (ClassSession * Store).

(** The one of [src/src/app.ts] called that way: its [role] is
    [undefined], which is not TEACHER, and the method takes the path of
    every role but TEACHER. *)
Definition leaveClassSessionWithoutRole : BoundLeave :=
  fun db now sessionId userId => leaveClassSession db now sessionId userId STUDENT.

(** [leaveClassSession(socket.data.sessionId, socket.data.userId)] and
    [endClass(socket.data.sessionId)]: with no session id on the socket,
    [findById(undefined)] finds nothing and the method throws.  The
    session that comes back is given with its [_id]. *)
Definition callLeaveClassSessionOf (bound : BoundLeave) (db : Store) (now : Date)
    (sessionId : option string) (userId : string)
  : Result (string * ClassSession * Store) :=
  match sessionId with
  | Some key =>
      run left <- bound db now key userId;
      ok (key, fst left, snd left)
  | None => throw SessionDoesNotExist
  end.

Definition callLeaveClassSession (db : Store) (now : Date)
    (sessionId : option string) (userId : string)
  : Result (string * ClassSession * Store) :=
  callLeaveClassSessionOf Earlier.leaveClassSession db now sessionId userId.

Definition callEndClass (db : Store) (now : Date) (sessionId : option string)
  : Result (string * ClassSession * Store) :=
  match sessionId with
  | Some key =>
      run ended <- endClass db now key;
      ok (key, fst ended, snd ended)
  | None => throw SessionDoesNotExist
  end.

Section Gateway.

Variable findParticipantByEmail : Store -> string -> bool.

(** [handleJoinClassroom(socket, data)]. *)
Definition handleJoinClassroom (oid : string) (db : Store) (socket : Socket)
    (data : IJoinClassRoom) : Store * Socket * list Emission :=
  let roomId := roomId data in
  match joinClassroom findParticipantByEmail db oid data with
  | inl error => (db, socket, [emitError (errorMessage error)])
  | inr (classParticipant, db) =>
      let socket := socketJoin socket roomId in
      let socket :=
        mkSocket (mkSocketData (Some (p_id classParticipant)) (Some roomId)
                               (Some (p_role classParticipant))
                               (sd_sessionId (sk_data socket)))
                 (sk_rooms socket) in
      let classroomState := findByClassRoomId db roomId in
      (db, socket,
       [mkEmission (ToRoom roomId) "classroom-updated" (ClassroomBody classroomState);
        mkEmission ToSocket "join-success"
          (JoinSuccessBody "Successfully joined classroom" classroomState)])
  end.

End Gateway.

(** [handleLeaveClassroom(socket)], over the [leaveClassSession] of the
    service that is bound.  (Here and below, a branch that yields nothing
    stands where a field that was just seen to be set would be missing;
    it is never taken.) *)
Definition handleLeaveClassroomOf (bound : BoundLeave) (now : Date) (db : Store)
    (socket : Socket) : Store * Socket * list Emission :=
  let data := sk_data socket in
  if negb (truthy (sd_roomId data)) || negb (truthy (sd_userId data))
  then (db, socket, [emitError "Not in a classroom"])
  else
    match sd_userId data with
    | None => (db, socket, [])
    | Some userId =>
        match callLeaveClassSessionOf bound db now (sd_sessionId data) userId with
        | inl error => (db, socket, [emitError (errorMessage error)])
        | inr (sessionId, session, db) =>
            let socket := socketLeave socket sessionId in
            (db, clearSocketData socket,
             [mkEmission (ToRoomButSender sessionId) "classroom-session-updated"
                (SessionBody sessionId session);
              mkEmission ToSocket "leave-success"
                (MessageBody "Left classroom successfully")])
        end
    end.

(** [handleLeaveClassroom(socket)] with the draft's method bound. *)
Definition handleLeaveClassroom (now : Date) (db : Store) (socket : Socket)
  : Store * Socket * list Emission :=
  handleLeaveClassroomOf Earlier.leaveClassSession now db socket.

(** [handleStartClass(socket)].  [loaded] and [oid] are what the draft's
    [startClass] needs. *)
Definition handleStartClass (loaded : Date) (oid : string) (db : Store)
    (socket : Socket) : Store * Socket * list Emission :=
  let data := sk_data socket in
  if negb (validateTeacherPermission socket)
  then (db, socket, [emitError "Only teachers can start the class"])
  else
    match sd_roomId data, sd_userId data with
    | Some roomId, Some userId =>
        let '((key, session), db) := Earlier.startClass db loaded oid roomId userId in
        let socket :=
          mkSocket (mkSocketData (sd_userId data) (sd_roomId data) (sd_role data)
                                 (Some key))
                   (sk_rooms socket) in
        (db, socket,
         [mkEmission (ToRoom roomId) "class-session-updated" (SessionBody key session);
          mkEmission (ToRoom roomId) "class-room-created"
            (StartedBody "Class Room has started" userId)])
    | _, _ => (db, socket, [])
    end.

(** [handleEndClass(socket)]. *)
Definition handleEndClass (now : Date) (db : Store) (socket : Socket)
  : Store * Socket * list Emission :=
  let data := sk_data socket in
  if negb (validateTeacherPermission socket)
  then (db, socket, [emitError "Only teachers can end the class"])
  else
    match sd_roomId data, sd_userId data with
    | Some roomId, Some userId =>
        match callEndClass db now (sd_sessionId data) with
        | inl error => (db, socket, [emitError (errorMessage error)])
        | inr (sessionId, session, db) =>
            (db, socket,
             [mkEmission (ToRoom roomId) "class-session-updated"
                (SessionBody sessionId session);
              mkEmission (ToRoom roomId) "class-session-ended"
                (EndedBody "Class session has ended" userId)])
        end
    | _, _ => (db, socket, [])
    end.

(** [handleDisconnect(socket)], over the [leaveClassSession] that is
    bound: a failure of the leave is logged and nothing is emitted. *)
Definition handleDisconnectOf (bound : BoundLeave) (now : Date) (db : Store)
    (socket : Socket) : Store * Socket * list Emission :=
  let data := sk_data socket in
  if truthy (sd_roomId data) && truthy (sd_userId data) && truthy (sd_sessionId data)
  then
    match sd_roomId data, sd_userId data, sd_sessionId data with
    | Some roomId, Some userId, Some sessionId =>
        match callLeaveClassSessionOf bound db now (Some sessionId) userId with
        | inl error => (db, socket, [])
        | inr (_, session, db) =>
            (db, socket,
             [mkEmission (ToRoomButSender roomId) "classroom-session-updated"
                (SessionBody sessionId session)])
        end
    | _, _, _ => (db, socket, [])
    end
  else (db, socket, []).

(** [handleDisconnect(socket)] with the draft's method bound. *)
Definition handleDisconnect (now : Date) (db : Store) (socket : Socket)
  : Store * Socket * list Emission :=
  handleDisconnectOf Earlier.leaveClassSession now db socket.

(** ** Vocabulary of the statements *)





(** The classroom with one more student, as the method builds it. *)
Definition withStudent (classRoom : ClassRoom) (slot : Ref) : ClassRoom :=
  {| c_roomId := c_roomId classRoom; c_name := c_name classRoom;
     isActive := isActive classRoom;
     teacherParticipant := teacherParticipant classRoom;
     studentParticipant := studentParticipant classRoom ++ [slot];
     participantHistory := participantHistory classRoom ++ [slot];
     c_eventLog := c_eventLog classRoom |}.

(** The session with one more participant. *)
Definition withParticipant (session : ClassSession) (slot : Ref) : ClassSession :=
  {| startedAt := startedAt session; endedAt := endedAt session;
     participantsHistory := participantsHistory session ++ [slot];
     currentParticipants := currentParticipants session ++ [slot];
     classRoomId := classRoomId session; s_eventLog := s_eventLog session |}.


(** ** Example databases *)

(** The classroom, the payload and the saved row of the test "creates and
    returns participant when new". *)
Definition testRoom : ClassRoom :=
  {| c_roomId := "rid"; c_name := "R"; isActive := true;
     teacherParticipant := []; studentParticipant := [];
     participantHistory := []; c_eventLog := [] |}.

(** The database of that test: the one classroom and nobody yet. *)
Definition testDb : Store :=
  {| classRooms := {[ "r1" := testRoom ]}; classSessions := ∅;
     participants := []; eventLogs := ∅ |}.

(** The payload of that test, which has neither [_id] nor [id]. *)
Definition alice : IParticipants :=
  {| pl__id := None; pl_id := None; pl_name := "Alice";
     pl_email := "a@example.com"; pl_role := STUDENT |}.

(** The row saved for it, under the id ['p1'] of the test. *)
Definition aliceRow : Participant :=
  mkParticipant "p1" "Alice" "a@example.com" STUDENT.

(** A teacher, her payload, and an inactive classroom she is a current
    member of. *)
Definition tina : Participant :=
  mkParticipant "t1" "Tina" "t@example.com" TEACHER.



Definition tinaPayload : IParticipants :=
  {| pl__id := Some "t1"; pl_id := Some "t1"; pl_name := "Tina";
     pl_email := "t@example.com"; pl_role := TEACHER |}.

(** Two active classrooms; Alice is a current student of the first and
    has never been in the second. *)
Definition roomA : ClassRoom :=
  {| c_roomId := "uuid-a"; c_name := "A"; isActive := true;
     teacherParticipant := []; studentParticipant := [Some "p1"];
     participantHistory := [Some "p1"]; c_eventLog := [] |}.

Definition roomB : ClassRoom :=
  {| c_roomId := "uuid-b"; c_name := "B"; isActive := true;
     teacherParticipant := []; studentParticipant := [];
     participantHistory := []; c_eventLog := [] |}.

Definition twoRooms : Store :=
  {| classRooms := {[ "A" := roomA; "B" := roomB ]}; classSessions := ∅;
     participants := [aliceRow]; eventLogs := ∅ |}.

(** The session of the test "removes participant, logs leave and possibly
    end events". *)
Definition testSession : ClassSession :=
  {| startedAt := Some 1000%Z; endedAt := Some 2000%Z;
     participantsHistory := [Some "u1"; Some "u2"];
     currentParticipants := [Some "u1"; Some "u2"];
     classRoomId := Some "r1"; s_eventLog := [] |}.

Definition testSessionDb : Store :=
  {| classRooms := {[ "r1" := testRoom ]};
     classSessions := {[ "s1" := testSession ]};
     participants := []; eventLogs := ∅ |}.

(** A running session with two students in it. *)
Definition openSession : ClassSession :=
  {| startedAt := Some 1000%Z; endedAt := None;
     participantsHistory := [Some "t1"; Some "u1"; Some "u2"];
     currentParticipants := [Some "t1"; Some "u1"; Some "u2"];
     classRoomId := Some "r1"; s_eventLog := [] |}.

Definition openSessionDb : Store :=
  {| classRooms := {[ "r1" := testRoom ]};
     classSessions := {[ "s1" := openSession ]};
     participants := []; eventLogs := ∅ |}.

(** A classroom with one teacher and two students. *)
Definition fullRoom : ClassRoom :=
  {| c_roomId := "rid"; c_name := "R"; isActive := true;
     teacherParticipant := [Some "t1"];
     studentParticipant := [Some "u1"; Some "u2"];
     participantHistory := [Some "t1"; Some "u1"; Some "u2"];
     c_eventLog := [] |}.

Definition fullRoomDb : Store :=
  {| classRooms := {[ "r1" := fullRoom ]}; classSessions := ∅;
     participants := []; eventLogs := ∅ |}.

(** The report of the test "returns formatted report when classroom
    exists": one JOIN by Bob, a student, in the room and in its session. *)
Definition bob : Participant :=
  mkParticipant "b1" "Bob" "bob@example.com" STUDENT.

Definition reportDb : Store :=
  {| classRooms :=
       {[ "r1" := {| c_roomId := "rid"; c_name := "R"; isActive := true;
                     teacherParticipant := []; studentParticipant := [Some "b1"];
                     participantHistory := [Some "b1"];
                     c_eventLog := ["e1"] |} ]};
     classSessions :=
       {[ "s1" := {| startedAt := Some 1609459200000%Z;
                     endedAt := Some 1609462800000%Z;
                     participantsHistory := []; currentParticipants := [];
                     classRoomId := Some "r1"; s_eventLog := ["e1"] |} ]};
     participants := [bob];
     eventLogs := {[ "e1" := mkEventLog JOIN "b1" 1609459200000%Z ]} |}.

(** The same room with two more ids on its log: an event whose actor has
    no row, and an id that names no event. *)
Definition danglingDb : Store :=
  {| classRooms :=
       {[ "r1" := {| c_roomId := "rid"; c_name := "R"; isActive := true;
                     teacherParticipant := []; studentParticipant := [Some "b1"];
                     participantHistory := [Some "b1"];
                     c_eventLog := ["e0"; "e1"; "e9"] |} ]};
     classSessions := ∅;
     participants := [bob];
     eventLogs := {[ "e0" := mkEventLog LEAVE "gone" 1609459100000%Z;
                     "e1" := mkEventLog JOIN "b1" 1609459200000%Z ]} |}.

(** A room with two teachers; [t0] has started a session. *)
Definition tom : Participant :=
  mkParticipant "t0" "Tom" "tom@example.com" TEACHER.

Definition staffRoom : ClassRoom :=
  {| c_roomId := "rid"; c_name := "R"; isActive := true;
     teacherParticipant := [Some "t0"; Some "t1"]; studentParticipant := [];
     participantHistory := [Some "t0"; Some "t1"]; c_eventLog := [] |}.

Definition staffSession : ClassSession :=
  {| startedAt := Some 1000%Z; endedAt := None;
     participantsHistory := [Some "t0"]; currentParticipants := [Some "t0"];
     classRoomId := Some "r1"; s_eventLog := [] |}.

Definition staffDb : Store :=
  {| classRooms := {[ "r1" := staffRoom ]};
     classSessions := {[ "s1" := staffSession ]};
     participants := [tom; tina]; eventLogs := ∅ |}.

(** The database after Tina has joined the session from the list. *)
Definition staffDbJoined : Store :=
  ClassSession_save
    (ClassRoom_save staffDb "r1" (withStudent staffRoom (Some "t1")))
    "s1" (withParticipant staffSession (Some "t1")).

(** The test database after Alice has joined room [r1]. *)
Definition testDbJoined : Store :=
  ClassRoom_save (Participant_save testDb aliceRow) "r1"
    {| c_roomId := "rid"; c_name := "R"; isActive := true;
       teacherParticipant := []; studentParticipant := [Some "p1"];
       participantHistory := [Some "p1"]; c_eventLog := [] |}.

(** The running session after [endClass] at time 3000. *)
Definition openSessionEnded : ClassSession :=
  {| startedAt := Some 1000%Z; endedAt := Some 3000%Z;
     participantsHistory := [Some "t1"; Some "u1"; Some "u2"];
     currentParticipants := [];
     classRoomId := Some "r1"; s_eventLog := [] |}.

Definition openSessionDbEnded : Store :=
  ClassSession_save openSessionDb "s1" openSessionEnded.

(** The running session after student [u1] has left. *)
Definition openSessionLeft : ClassSession :=
  {| startedAt := Some 1000%Z; endedAt := None;
     participantsHistory := [Some "t1"; Some "u1"; Some "u2"];
     currentParticipants := [Some "t1"; Some "u2"];
     classRoomId := Some "r1"; s_eventLog := [] |}.

Definition openSessionDbLeft : Store :=
  ClassSession_save openSessionDb "s1" openSessionLeft.

(** The running session after [t1] has left it by the draft's method, at
    time 3000: ended, and nobody left in it. *)
Definition draftSessionLeft : ClassSession :=
  {| startedAt := Some 1000%Z; endedAt := Some 3000%Z;
     participantsHistory := [Some "t1"; Some "u1"; Some "u2"];
     currentParticipants := [];
     classRoomId := Some "r1"; s_eventLog := [] |}.

Definition draftDbLeft : Store :=
  ClassSession_save openSessionDb "s1" draftSessionLeft.

(** The view of the session of the room with two teachers. *)
Definition staffView : SessionView :=
  {| sv_session := staffSession;
     sv_currentParticipants := [tom];
     sv_classRoom := ("r1", staffRoom);
     sv_teacherParticipant := [tom];
     sv_studentParticipant := [];
     sv_name := "R" |}.

(** A socket that has just connected, and the socket of teacher [t1] in
    room [r1], without and with the session [s1]. *)
Definition newSocket : Socket :=
  mkSocket (mkSocketData None None None None) [].

Definition teacherSocket : Socket :=
  mkSocket (mkSocketData (Some "t1") (Some "r1") (Some TEACHER) None) ["r1"].

Definition teacherSocketInSession : Socket :=
  mkSocket (mkSocketData (Some "t1") (Some "r1") (Some TEACHER) (Some "s1")) ["r1"].

(** * Properties *)

(** ** Reading back what was saved *)

Lemma ClassRoom_findById_save db key c :
  ClassRoom_findById (ClassRoom_save db key c) key = Some c.
Proof. unfold ClassRoom_findById, ClassRoom_save; simpl. apply lookup_insert_eq. Qed.

Lemma ClassSession_findById_save db key s :
  ClassSession_findById (ClassSession_save db key s) key = Some s.
Proof. unfold ClassSession_findById, ClassSession_save; simpl. apply lookup_insert_eq. Qed.

Lemma ClassRoom_findById_session_save db key s key' :
  ClassRoom_findById (ClassSession_save db key s) key' = ClassRoom_findById db key'.
Proof. reflexivity. Qed.

Lemma jsEq_true (a b : Ref) : jsEq a b = true <-> a = b.
Proof. unfold jsEq. apply bool_decide_eq_true. Qed.

Lemma existsb_jsEq (x : Ref) (l : list Ref) :
  List.existsb (fun slot => jsEq slot x) l = true <-> In x l.
Proof.
  rewrite existsb_exists. split.
  - intros (y & Hin & Heq). apply jsEq_true in Heq. now subst.
  - intros Hin. exists x. split; [assumption | now apply jsEq_true].
Qed.

Lemma existsb_jsEq_false (x : Ref) (l : list Ref) :
  List.existsb (fun slot => jsEq slot x) l = false <-> ~ In x l.
Proof.
  rewrite <- existsb_jsEq. destruct (List.existsb _ l); split; congruence.
Qed.

(** ** joinClassroom *)

Section JoinClassroom.

Variable findParticipantByEmail : Store -> string -> bool.

(** X4.  A successful join pushes the participant on the list of the role in
    the payload and on the history, saves the classroom, and writes
    nothing to any event log. *)
Lemma joinClassroom_saved db oid payload c p db' :
  ClassRoom_findById db (roomId payload) = Some c ->
  joinClassroom findParticipantByEmail db oid payload = inr (p, db') ->
  exists c',
    ClassRoom_findById db' (roomId payload) = Some c' /\
    participantHistory c' = participantHistory c ++ [Some (p_id p)] /\
    (pl_role (participant payload) = TEACHER ->
       teacherParticipant c' = teacherParticipant c ++ [Some (p_id p)] /\
       studentParticipant c' = studentParticipant c) /\
    (pl_role (participant payload) = STUDENT ->
       studentParticipant c' = studentParticipant c ++ [Some (p_id p)] /\
       teacherParticipant c' = teacherParticipant c) /\
    c_eventLog c' = c_eventLog c /\
    eventLogs db' = eventLogs db.
Proof.
  intros Hroom. unfold joinClassroom. rewrite Hroom. cbn [orThrow ok].
  destruct (throwIf _ InactiveRoom) as [e | []]; [discriminate |].
  destruct (throwIf _ DuplicateParticipant) as [e | []]; [discriminate |].
  destruct (Participant_findOne db _) as [row |];
    destruct (pl_role (participant payload)); cbn;
    intros [= <- <-]; eexists; (split; [apply ClassRoom_findById_save |]);
    cbn; unfold push; repeat split; intros; congruence.
Qed.


(** When the join gets past the first two guards, it is refused as a
    duplicate exactly when a row with the email exists and the query
    finds the email.  No list of the classroom that is joined takes part
    in the decision. *)
Lemma joinClassroom_duplicate_iff db oid payload c :
  ClassRoom_findById db (roomId payload) = Some c ->
  (pl_role (participant payload) = STUDENT -> isActive c = true) ->
  joinClassroom findParticipantByEmail db oid payload = inl DuplicateParticipant
  <-> (exists row,
         Participant_findOne db (pl_email (participant payload)) = Some row) /\
      findParticipantByEmail db (pl_email (participant payload)) = true.
Proof.
  intros Hroom Hactive. unfold joinClassroom. rewrite Hroom. cbn.
  assert (bool_decide (pl_role (participant payload) = STUDENT)
          && negb (isActive c) = false) as ->.
  { destruct (pl_role (participant payload)); [reflexivity |].
    now rewrite Hactive. }
  cbn. destruct (Participant_findOne db _) as [row |].
  - destruct (findParticipantByEmail db _); cbn.
    + split; eauto.
    + split; [discriminate | intros [_ ?]; discriminate].
  - cbn. split; [discriminate | intros [[row ?] _]; discriminate].
Qed.


End JoinClassroom.

(** *** With the membership query of the specification *)

Lemma ClassRoom_findParticipantByEmail_member db key c row slotKey :
  ClassRoom_findById db key = Some c ->
  In row (participants db) ->
  In (Some slotKey) (teacherParticipant c ++ studentParticipant c) ->
  p_id row = slotKey ->
  ClassRoom_findParticipantByEmail db (p_email row) = true.
Proof.
  intros Hroom Hrow Hslot Hid.
  unfold ClassRoom_findParticipantByEmail. apply existsb_exists.
  exists (key, c). split.
  - apply list_elem_of_In, elem_of_map_to_list. exact Hroom.
  - cbn. unfold currentMemberByEmail. apply existsb_exists.
    exists (Some slotKey). split; [assumption |].
    apply existsb_exists. exists row. split; [assumption |].
    rewrite Hid, !String.eqb_refl. reflexivity.
Qed.

(** A returning participant whose join is accepted was in neither current
    list of the classroom, so that the push leaves it there once. *)
Lemma joinClassroom_returning_not_member db oid payload c row p db' :
  ClassRoom_findById db (roomId payload) = Some c ->
  Participant_findOne db (pl_email (participant payload)) = Some row ->
  joinClassroom ClassRoom_findParticipantByEmail db oid payload = inr (p, db') ->
  p = row /\
  ~ In (Some (p_id row)) (teacherParticipant c ++ studentParticipant c).
Proof.
  intros Hroom Hrow. unfold joinClassroom. rewrite Hroom, Hrow. cbn.
  destruct (throwIf _ InactiveRoom) as [e | []]; [discriminate |].
  destruct (ClassRoom_findParticipantByEmail db _) eqn:Hdup; [discriminate |].
  cbn. intros [= <- _]. split; [reflexivity |]. intros Hin.
  unfold Participant_findOne in Hrow. apply find_some in Hrow as [Hmem Hmail].
  apply String.eqb_eq in Hmail.
  rewrite <- Hmail in Hdup.
  rewrite (ClassRoom_findParticipantByEmail_member db _ c row (p_id row)
             Hroom Hmem Hin eq_refl) in Hdup.
  discriminate.
Qed.

(** *** On the databases of the examples *)

(** C1, on the test's own input.  The join succeeds and returns the new
    row, which is once in [studentParticipant] and once in the history;
    the classroom's event log is as empty as before and no event row was
    written, where the claim (and the test) want one JOIN entry. *)
Theorem joinClassroom_records_no_event :
  forall findParticipantByEmail,
  exists db',
    joinClassroom findParticipantByEmail testDb "p1"
                  (mkIJoinClassRoom "r1" alice) = inr (aliceRow, db') /\
    ClassRoom_findById db' "r1"
      = Some {| c_roomId := "rid"; c_name := "R"; isActive := true;
                teacherParticipant := [];
                studentParticipant := [Some "p1"];
                participantHistory := [Some "p1"];
                c_eventLog := [] |} /\
    eventLogs db' = ∅.
Proof.
  intros findParticipantByEmail. eexists. split; [reflexivity |].
  split; reflexivity.
Qed.



(** C5, on two rooms.  Alice is a current member of room A and of no other
    room.  The duplicate check is handed her email and no room, so it
    answers the same for both joins: whatever the query does, either her
    second join of A is accepted, or her join of B is refused as a
    duplicate. *)
Theorem joinClassroom_duplicate_check_ignores_room :
  forall findParticipantByEmail oid,
    (exists db',
       joinClassroom findParticipantByEmail twoRooms oid
                     (mkIJoinClassRoom "A" alice) = inr (aliceRow, db'))
    \/
    joinClassroom findParticipantByEmail twoRooms oid
                  (mkIJoinClassRoom "B" alice) = inl DuplicateParticipant.
Proof.
  intros find oid.
  destruct (find twoRooms "a@example.com") eqn:Hfound.
  - right. unfold joinClassroom. cbn. now rewrite Hfound.
  - left. unfold joinClassroom. cbn. rewrite Hfound. cbn. eauto.
Qed.

(** With the membership-by-email query of the specification, which
    searches every classroom, it is the join of room B that goes wrong. *)
Example joinClassroom_other_room_refused :
  ~ In (Some "p1") (teacherParticipant roomB ++ studentParticipant roomB) /\
  joinClassroom ClassRoom_findParticipantByEmail twoRooms "p9"
                (mkIJoinClassRoom "B" alice) = inl DuplicateParticipant.
Proof. split; [cbn; tauto | vm_compute; reflexivity]. Qed.

(** ** startClass *)

(** C6.  Whatever the database holds, [startClass] returns (and saves) a
    session with [endedAt] unset, [currentParticipants] and
    [participantsHistory] both [[teacherId]], and [startedAt] the time of
    the call.  It cannot fail, and the session it builds is the same for
    every database: neither the room nor the teacher is looked up. *)
Theorem startClass_session :
  forall db now oid roomId teacherId,
    let session := snd (fst (startClass db now oid roomId teacherId)) in
    let db' := snd (startClass db now oid roomId teacherId) in
    endedAt session = None /\
    currentParticipants session = [Some teacherId] /\
    participantsHistory session = [Some teacherId] /\
    startedAt session = Some now /\
    classRoomId session = Some roomId /\
    ClassSession_findById db' oid = Some session /\
    (forall other : Store,
       fst (startClass other now oid roomId teacherId)
       = fst (startClass db now oid roomId teacherId)).
Proof.
  intros db now oid roomId teacherId. cbn.
  repeat split. apply ClassSession_findById_save.
Qed.

(** The earlier draft seeds no history and stamps the schema's default
    date instead of the time of the call. *)
Lemma Earlier_startClass_session :
  forall db loaded oid roomId teacherId,
    let session := snd (fst (Earlier.startClass db loaded oid roomId teacherId)) in
    currentParticipants session = [Some teacherId] /\
    participantsHistory session = [] /\
    startedAt session = Some loaded /\
    endedAt session = None.
Proof. intros. cbn. repeat split. Qed.

(** ** endClass *)

Lemma endClass_session db now sessionId session :
  ClassSession_findById db sessionId = Some session ->
  exists session' db',
    endClass db now sessionId = inr (session', db') /\
    ClassSession_findById db' sessionId = Some session' /\
    currentParticipants session' = [] /\
    endedAt session' = Some now /\
    s_eventLog session' = s_eventLog session.
Proof.
  intros Hfound. unfold endClass. rewrite Hfound. cbn.
  do 2 eexists. split; [reflexivity |].
  split; [apply ClassSession_findById_save |]. repeat split.
Qed.

Lemma endClass_missing db now sessionId :
  ClassSession_findById db sessionId = None ->
  endClass db now sessionId = inl SessionDoesNotExist.
Proof. intros Hnone. unfold endClass. now rewrite Hnone. Qed.

(** ** leaveClassSession *)

Lemma leaveClassSession_missing db now sessionId userId role :
  ClassSession_findById db sessionId = None ->
  leaveClassSession db now sessionId userId role = inl SessionDoesNotExist.
Proof. intros Hnone. unfold leaveClassSession. now rewrite Hnone. Qed.

(** The filter of the draft keeps no slot. *)
Lemma Earlier_filter_nil (userId : string) (l : list Ref) :
  List.filter (fun participant => Earlier.strictEqUserId participant userId) l = [].
Proof. induction l as [| slot l IH]; cbn; [reflexivity | exact IH]. Qed.

(** In the earlier draft every leave ends the session, and no slot
    stays. *)
Lemma Earlier_leaveClassSession_session db now sessionId userId session :
  ClassSession_findById db sessionId = Some session ->
  exists session' db',
    Earlier.leaveClassSession db now sessionId userId = inr (session', db') /\
    currentParticipants session' = [] /\
    endedAt session' = Some now.
Proof.
  intros Hfound. unfold Earlier.leaveClassSession. rewrite Hfound. cbn.
  do 2 eexists. split; [reflexivity |]. split; [| reflexivity].
  apply Earlier_filter_nil.
Qed.

(** A teacher's leave empties the session and ends it; no event log is
    touched. *)
Lemma leaveClassSession_teacher db now sessionId userId session :
  ClassSession_findById db sessionId = Some session ->
  exists session' db',
    leaveClassSession db now sessionId userId TEACHER = inr (session', db') /\
    ClassSession_findById db' sessionId = Some session' /\
    currentParticipants session' = [] /\
    endedAt session' = Some now /\
    s_eventLog session' = s_eventLog session /\
    eventLogs db' = eventLogs db.
Proof.
  intros Hfound. unfold leaveClassSession. rewrite Hfound. cbn.
  do 2 eexists. split; [reflexivity |].
  split; [apply ClassSession_findById_save |]. repeat split.
Qed.

(** A student's leave drops the slots equal to [userId] and keeps the
    others in order; [endedAt] and the event logs stay as they were. *)
Lemma leaveClassSession_student db now sessionId userId session :
  ClassSession_findById db sessionId = Some session ->
  exists session' db',
    leaveClassSession db now sessionId userId STUDENT = inr (session', db') /\
    ClassSession_findById db' sessionId = Some session' /\
    currentParticipants session'
      = List.filter (fun slot => negb (jsEq slot (Some userId)))
                    (currentParticipants session) /\
    endedAt session' = endedAt session /\
    s_eventLog session' = s_eventLog session /\
    eventLogs db' = eventLogs db.
Proof.
  intros Hfound. unfold leaveClassSession. rewrite Hfound. cbn.
  do 2 eexists. split; [reflexivity |].
  split; [apply ClassSession_findById_save |]. repeat split.
Qed.

(** X10.  After a student's leave [userId] is gone, and every other slot is
    there exactly when it was there before. *)
Lemma leaveClassSession_student_members db now sessionId userId session session' db' :
  ClassSession_findById db sessionId = Some session ->
  leaveClassSession db now sessionId userId STUDENT = inr (session', db') ->
  ~ In (Some userId) (currentParticipants session') /\
  (forall slot, slot <> Some userId ->
     (In slot (currentParticipants session')
      <-> In slot (currentParticipants session))).
Proof.
  intros Hfound Hleave.
  destruct (leaveClassSession_student db now sessionId userId session Hfound)
    as (s & d & Hrun & _ & Hcur & _).
  rewrite Hrun in Hleave. injection Hleave as <- <-. rewrite Hcur. split.
  - rewrite filter_In. intros [_ Hkeep].
    rewrite (proj2 (jsEq_true _ _) eq_refl) in Hkeep. discriminate.
  - intros slot Hne. rewrite filter_In. split; [tauto |].
    intros Hin. split; [assumption |].
    destruct (jsEq slot (Some userId)) eqn:Heq; [| reflexivity].
    apply jsEq_true in Heq. contradiction.
Qed.

(** C3, on the test's own input.  The teacher's leave empties
    [currentParticipants] and sets [endedAt]; the session's event log is
    still empty and no event row was written, where the claim (and the
    test, which expects [['leave1', 'end1']]) want a LEAVE and an END
    entry. *)
Theorem leaveClassSession_teacher_records_no_event :
  exists session' db',
    leaveClassSession testSessionDb 3000%Z "s1" "u1" TEACHER
      = inr (session', db') /\
    currentParticipants session' = [] /\
    endedAt session' = Some 3000%Z /\
    s_eventLog session' = [] /\
    eventLogs db' = ∅.
Proof. do 2 eexists. split; [reflexivity |]. repeat split. Qed.

(** C4, on a running session.  The student's leave removes [u1] alone and
    leaves [endedAt] unset; the session's event log is still empty and no
    event row was written, where the claim wants one LEAVE entry. *)
Theorem leaveClassSession_student_records_no_event :
  exists session' db',
    leaveClassSession openSessionDb 3000%Z "s1" "u1" STUDENT
      = inr (session', db') /\
    currentParticipants session' = [Some "t1"; Some "u2"] /\
    endedAt session' = None /\
    s_eventLog session' = [] /\
    eventLogs db' = ∅.
Proof. do 2 eexists. split; [reflexivity |]. repeat split. Qed.

(** ** leaveClassRoom *)

(** What the method computes: the list of the given role keeps the slots
    that are equal to [userId] and loses all the others. *)
Lemma leaveClassRoom_filter db roomId userId role classroom :
  ClassRoom_findById db roomId = Some classroom ->
  exists classroom',
    leaveClassRoom db roomId userId role = inr classroom' /\
    (role = STUDENT ->
       studentParticipant classroom'
         = List.filter (fun slot => jsEq slot (Some userId))
                       (studentParticipant classroom) /\
       teacherParticipant classroom' = teacherParticipant classroom) /\
    (role = TEACHER ->
       teacherParticipant classroom'
         = List.filter (fun slot => jsEq slot (Some userId))
                       (teacherParticipant classroom) /\
       studentParticipant classroom' = studentParticipant classroom).
Proof.
  intros Hfound. unfold leaveClassRoom. rewrite Hfound. cbn.
  eexists. split; [reflexivity |].
  destruct role; cbn; split; intros; try discriminate; split; reflexivity.
Qed.

(** C7, on a room with two students.  When [u1] leaves, the returned
    classroom lists [u1] as its only student: the leaver is kept and [u2]
    is dropped, the reverse of what the claim says.  The teacher list is
    untouched and the stored classroom is the old one. *)
Theorem leaveClassRoom_keeps_the_leaver :
  exists classroom',
    leaveClassRoom fullRoomDb "r1" "u1" STUDENT = inr classroom' /\
    studentParticipant classroom' = [Some "u1"] /\
    teacherParticipant classroom' = [Some "t1"] /\
    ClassRoom_findById fullRoomDb "r1" = Some fullRoom.
Proof. eexists. split; [reflexivity |]. repeat split. Qed.

(** ** getClassRoomReportById *)






Example getClassRoomReportById_test_report :
  getClassRoomReportById reportDb "r1"
  = Returned
      (mkServiceResponse HTTP_OK
         (Some {| rc_id := "r1"; rc_roomId := "rid"; rc_name := "R";
                  rc_eventLog := [mkReportEvent JOIN "Bob" STUDENT 1609459200000%Z];
                  rc_sessions :=
                    [mkReportSession (Some 1609459200000%Z) (Some 1609462800000%Z)
                       [mkReportEvent JOIN "Bob" STUDENT 1609459200000%Z]] |})
         None).
Proof. vm_compute. reflexivity. Qed.

Example getClassRoomReportById_test_missing :
  getClassRoomReportById reportDb "x"
  = Returned (mkServiceResponse HTTP_NOT_FOUND None (Some "Class room not found")).
Proof. vm_compute. reflexivity. Qed.

(** An event whose actor is gone: the formatter of a line would throw on
    it, and the report leaves it out. *)
Example getClassRoomReportById_dangling_actor :
  reportLine (mkPopulatedEvent JOIN None 1609459200000%Z) = TypeErrorThrown /\
  getClassRoomReportById danglingDb "r1"
  = Returned
      (mkServiceResponse HTTP_OK
         (Some {| rc_id := "r1"; rc_roomId := "rid"; rc_name := "R";
                  rc_eventLog := [mkReportEvent JOIN "Bob" STUDENT 1609459200000%Z];
                  rc_sessions := [] |})
         None).
Proof. split; [reflexivity | vm_compute; reflexivity]. Qed.

(** ** joinSessionViaSessionList *)

(** The session and the classroom the method works on. *)
Lemma ClassSession_findById_populated_found db sessionId session roomKey classRoom :
  ClassSession_findById db sessionId = Some session ->
  classRoomId session = Some roomKey ->
  ClassRoom_findById db roomKey = Some classRoom ->
  ClassSession_findById_populated db sessionId
  = Some (session, Some (roomKey, classRoom)).
Proof.
  intros Hs Hk Hc. unfold ClassSession_findById_populated.
  now rewrite Hs, Hk, Hc.
Qed.

(** The method, case by case, for a session that has its classroom. *)
Lemma joinSessionViaSessionList_cases db oid sessionId payload session roomKey classRoom :
  ClassSession_findById db sessionId = Some session ->
  classRoomId session = Some roomKey ->
  ClassRoom_findById db roomKey = Some classRoom ->
  joinSessionViaSessionList db oid sessionId payload
  = match Participant_findOne db (pl_email payload) with
    | None =>
        let row := Participant_create oid payload in
        inr ((row, roomKey),
             ClassSession_save
               (ClassRoom_save (Participant_save db row) roomKey
                  (withStudent classRoom (pl_id payload)))
               sessionId (withParticipant session (pl_id payload)))
    | Some row =>
        if List.existsb (fun p => jsEq p (pl__id payload))
                        (currentParticipants session)
        then inl AlreadyInSession
        else
          inr ((row, roomKey),
               ClassSession_save
                 (if List.existsb (fun s => jsEq s (pl__id payload))
                                  (studentParticipant classRoom)
                  then db
                  else ClassRoom_save db roomKey
                         (withStudent classRoom (pl_id payload)))
                 sessionId (withParticipant session (pl_id payload)))
    end.
Proof.
  intros Hs Hk Hc. unfold joinSessionViaSessionList.
  rewrite (ClassSession_findById_populated_found _ _ _ _ _ Hs Hk Hc). cbn.
  destruct (Participant_findOne db (pl_email payload)) as [row |].
  - destruct (List.existsb _ (currentParticipants session)); [reflexivity |].
    cbn. destruct (List.existsb _ (studentParticipant classRoom)); reflexivity.
  - reflexivity.
Qed.

(** The branch of an existing participant, for a payload that names the
    row behind it.  Let a Participant row with the payload's email exist,
    and let the payload carry that row's id as its [_id] and [id].  The
    method fails with AlreadyInSession exactly when the row's id is in the
    session's [currentParticipants].  Otherwise it returns the row,
    appends the id to the classroom's [studentParticipant] and
    [participantHistory] exactly when the id is not yet in
    [studentParticipant], and appends it to the session's
    [currentParticipants] and [participantsHistory] in either case. *)
Lemma joinSessionViaSessionList_existing
    db oid sessionId payload session roomKey classRoom row :
  ClassSession_findById db sessionId = Some session ->
  classRoomId session = Some roomKey ->
  ClassRoom_findById db roomKey = Some classRoom ->
  Participant_findOne db (pl_email payload) = Some row ->
  pl__id payload = Some (p_id row) ->
  pl_id payload = Some (p_id row) ->
  (joinSessionViaSessionList db oid sessionId payload = inl AlreadyInSession
   <-> In (Some (p_id row)) (currentParticipants session)) /\
  (~ In (Some (p_id row)) (currentParticipants session) ->
   exists db',
     joinSessionViaSessionList db oid sessionId payload
       = inr ((row, roomKey), db') /\
     ClassSession_findById db' sessionId
       = Some (withParticipant session (Some (p_id row))) /\
     (In (Some (p_id row)) (studentParticipant classRoom) ->
        ClassRoom_findById db' roomKey = Some classRoom) /\
     (~ In (Some (p_id row)) (studentParticipant classRoom) ->
        ClassRoom_findById db' roomKey
          = Some (withStudent classRoom (Some (p_id row))))).
Proof.
  intros Hs Hk Hc Hrow Hid1 Hid2.
  rewrite (joinSessionViaSessionList_cases _ _ _ _ _ _ _ Hs Hk Hc).
  rewrite Hrow, Hid1, Hid2.
  destruct (List.existsb _ (currentParticipants session)) eqn:Hin.
  - apply existsb_jsEq in Hin. split; [tauto | contradiction].
  - apply existsb_jsEq_false in Hin. split; [split; [discriminate | contradiction] |].
    intros _. eexists. split; [reflexivity |].
    split; [apply ClassSession_findById_save |].
    rewrite ClassRoom_findById_session_save.
    destruct (List.existsb _ (studentParticipant classRoom)) eqn:Hstu.
    + apply existsb_jsEq in Hstu. split; [auto | contradiction].
    + apply existsb_jsEq_false in Hstu. split; [contradiction |].
      intros _. apply ClassRoom_findById_save.
Qed.

(** C10.  Whenever the method succeeds, the classroom's
    [teacherParticipant] is what it was, whatever the role in the
    payload; a participant that is added to the classroom (a new row, or
    a payload [_id] that is not in [studentParticipant]) goes on
    [studentParticipant] and the history.  Whether an existing one is
    added depends on [studentParticipant] alone: it is left out when its
    id is there, and added when it is not, so that a teacher whose id
    sits in [teacherParticipant] is added to the students all the same. *)
Theorem joinSessionViaSessionList_student_list
    db oid sessionId payload session roomKey classRoom result db' :
  ClassSession_findById db sessionId = Some session ->
  classRoomId session = Some roomKey ->
  ClassRoom_findById db roomKey = Some classRoom ->
  joinSessionViaSessionList db oid sessionId payload = inr (result, db') ->
  exists classRoom',
    ClassRoom_findById db' roomKey = Some classRoom' /\
    teacherParticipant classRoom' = teacherParticipant classRoom /\
    (classRoom' = classRoom \/
     classRoom' = withStudent classRoom (pl_id payload)) /\
    (Participant_findOne db (pl_email payload) = None ->
       classRoom' = withStudent classRoom (pl_id payload)) /\
    (~ In (pl__id payload) (studentParticipant classRoom) ->
       classRoom' = withStudent classRoom (pl_id payload)) /\
    (forall row, Participant_findOne db (pl_email payload) = Some row ->
       In (pl__id payload) (studentParticipant classRoom) ->
       classRoom' = classRoom) /\
    (pl_role payload = TEACHER ->
     In (pl__id payload) (teacherParticipant classRoom) ->
     ~ In (pl__id payload) (studentParticipant classRoom) ->
       studentParticipant classRoom'
         = studentParticipant classRoom ++ [pl_id payload]).
Proof.
  intros Hs Hk Hc.
  rewrite (joinSessionViaSessionList_cases _ _ _ _ _ _ _ Hs Hk Hc).
  destruct (Participant_findOne db (pl_email payload)) as [row |].
  - destruct (List.existsb _ (currentParticipants session)); [discriminate |].
    destruct (List.existsb _ (studentParticipant classRoom)) eqn:Hstu;
      intros [= <- <-]; rewrite ClassRoom_findById_session_save.
    + apply existsb_jsEq in Hstu. exists classRoom.
      repeat split; intros; auto; try discriminate; contradiction.
    + apply existsb_jsEq_false in Hstu.
      exists (withStudent classRoom (pl_id payload)).
      rewrite ClassRoom_findById_save.
      repeat split; intros; auto; try discriminate; contradiction.
  - cbn. intros [= <- <-]. rewrite ClassRoom_findById_session_save.
    exists (withStudent classRoom (pl_id payload)).
    rewrite ClassRoom_findById_save.
    repeat split; intros; auto; discriminate.
Qed.

(** C9, on a room with two teachers.  Tina has a Participant row, is not
    in the session and is a current member of the classroom, as a
    teacher; the method lets her into the session and appends her to the
    classroom's student list and to its history nevertheless, where the
    claim, like the comment 'Add to classroom if not present' of the
    code, has a member of the classroom left as she is. *)
Theorem joinSessionViaSessionList_member_added_again :
  Participant_findOne staffDb (pl_email tinaPayload) = Some tina /\
  In (Some "t1") (teacherParticipant staffRoom) /\
  exists db',
    joinSessionViaSessionList staffDb "p9" "s1" tinaPayload
      = inr ((tina, "r1"), db') /\
    ClassRoom_findById db' "r1"
      = Some {| c_roomId := "rid"; c_name := "R"; isActive := true;
                teacherParticipant := [Some "t0"; Some "t1"];
                studentParticipant := [Some "t1"];
                participantHistory := [Some "t0"; Some "t1"; Some "t1"];
                c_eventLog := [] |}.
Proof.
  split; [reflexivity |]. split; [cbn; auto |].
  eexists. split; reflexivity.
Qed.

Lemma joinSessionViaSessionList_existing_witness :
  (joinSessionViaSessionList staffDb "p9" "s1" tinaPayload = inl AlreadyInSession
   <-> In (Some (p_id tina)) (currentParticipants staffSession)) /\
  (~ In (Some (p_id tina)) (currentParticipants staffSession) ->
   exists db',
     joinSessionViaSessionList staffDb "p9" "s1" tinaPayload
       = inr ((tina, "r1"), db') /\
     ClassSession_findById db' "s1"
       = Some (withParticipant staffSession (Some (p_id tina))) /\
     (In (Some (p_id tina)) (studentParticipant staffRoom) ->
        ClassRoom_findById db' "r1" = Some staffRoom) /\
     (~ In (Some (p_id tina)) (studentParticipant staffRoom) ->
        ClassRoom_findById db' "r1"
          = Some (withStudent staffRoom (Some (p_id tina))))).
Proof.
  apply (joinSessionViaSessionList_existing staffDb "p9" "s1" tinaPayload
           staffSession "r1" staffRoom tina); reflexivity.
Defined.

(** The payload's [_id], not the row that was found, is what the two
    membership tests look at: Tom is in the session, but a payload that
    has his email and no [_id] is let in, and an empty slot is pushed. *)
Example joinSessionViaSessionList_payload_without_id :
  exists db',
    joinSessionViaSessionList staffDb "p9" "s1"
      (mkIParticipants None None "Tom" "tom@example.com" TEACHER)
      = inr ((tom, "r1"), db') /\
    ClassSession_findById db' "s1"
      = Some (withParticipant staffSession None).
Proof. eexists. split; reflexivity. Qed.

Lemma joinSessionViaSessionList_student_list_witness :
  exists classRoom',
    ClassRoom_findById staffDbJoined "r1" = Some classRoom' /\
    teacherParticipant classRoom' = teacherParticipant staffRoom /\
    (classRoom' = staffRoom \/
     classRoom' = withStudent staffRoom (pl_id tinaPayload)) /\
    (Participant_findOne staffDb (pl_email tinaPayload) = None ->
       classRoom' = withStudent staffRoom (pl_id tinaPayload)) /\
    (~ In (pl__id tinaPayload) (studentParticipant staffRoom) ->
       classRoom' = withStudent staffRoom (pl_id tinaPayload)) /\
    (forall row, Participant_findOne staffDb (pl_email tinaPayload) = Some row ->
       In (pl__id tinaPayload) (studentParticipant staffRoom) ->
       classRoom' = staffRoom) /\
    (pl_role tinaPayload = TEACHER ->
     In (pl__id tinaPayload) (teacherParticipant staffRoom) ->
     ~ In (pl__id tinaPayload) (studentParticipant staffRoom) ->
       studentParticipant classRoom'
         = studentParticipant staffRoom ++ [pl_id tinaPayload]).
Proof.
  apply (joinSessionViaSessionList_student_list staffDb "p9" "s1" tinaPayload
           staffSession "r1" staffRoom (tina, "r1") staffDbJoined);
    reflexivity.
Defined.

(** * Further properties of the service *)

(** Take the hypotheses apart. *)
Ltac break_hyps :=
  repeat match goal with
         | H : exists _, _ |- _ => destruct H
         | H : _ /\ _ |- _ => destruct H
         | H : _ \/ _ |- _ => destruct H
         end.

(** [find] on a list that has grown at its end. *)
Lemma find_app_Some {A : Type} (f : A -> bool) (l l' : list A) (x : A) :
  List.find f l = Some x -> List.find f (l ++ l') = Some x.
Proof.
  induction l as [| y l IH]; cbn; [discriminate |].
  destruct (f y); auto.
Qed.

Lemma find_app_None {A : Type} (f : A -> bool) (l l' : list A) :
  List.find f l = None -> List.find f (l ++ l') = List.find f l'.
Proof.
  induction l as [| y l IH]; cbn; [reflexivity |].
  destruct (f y); [discriminate | auto].
Qed.

(** ** joinClassroom, case by case *)

Section JoinClassroomMore.

Variable findParticipantByEmail : Store -> string -> bool.

(** X1.  The three ways [joinClassroom] fails and the way it succeeds, each
    with the exact condition under which it happens: the room is looked
    up first, the [isActive] guard comes second and stops students only,
    the duplicate check comes last and needs both a row with the email
    and an answer of the membership query. *)
Theorem joinClassroom_outcome db oid payload :
  let mail := pl_email (participant payload) in
  let role := pl_role (participant payload) in
  let room := ClassRoom_findById db (roomId payload) in
  let outcome := joinClassroom findParticipantByEmail db oid payload in
  (outcome = inl ClassRoomNotFound <-> room = None) /\
  (outcome = inl InactiveRoom <->
     exists c, room = Some c /\ role = STUDENT /\ isActive c = false) /\
  (outcome = inl DuplicateParticipant <->
     exists c row,
       room = Some c /\ (role = STUDENT -> isActive c = true) /\
       Participant_findOne db mail = Some row /\
       findParticipantByEmail db mail = true) /\
  ((exists p db', outcome = inr (p, db')) <->
     exists c,
       room = Some c /\ (role = STUDENT -> isActive c = true) /\
       (Participant_findOne db mail = None \/
        findParticipantByEmail db mail = false)) /\
  (forall e, outcome = inl e ->
     e = ClassRoomNotFound \/ e = InactiveRoom \/ e = DuplicateParticipant).
Proof.
  cbn zeta. unfold joinClassroom.
  destruct (ClassRoom_findById db (roomId payload)) as [c |]; cbn.
  2: { repeat split; intros; break_hyps; try discriminate; simplify_eq; auto. }
  destruct (pl_role (participant payload)) eqn:Hrole;
    destruct (isActive c) eqn:Hactive;
    destruct (Participant_findOne db _) as [row |] eqn:Hrow;
    destruct (findParticipantByEmail db _) eqn:Hdup; cbn.
  all: repeat split; intros; break_hyps;
    try discriminate; try congruence; simplify_eq.
  all: try (match goal with
            | H : STUDENT = STUDENT -> _ |- _ => specialize (H eq_refl)
            end; congruence).
  all: try solve [auto].
  all: try solve [eexists; eexists; reflexivity].
  all: try solve [eexists; repeat split; eauto; congruence].
  all: try solve [eexists; eexists; repeat split; eauto; congruence].
  all: match goal with
       | H : _ = inl ?e |- _ => simpl in H; injection H as <-; auto
       end.
Qed.

(** The same method laid out as one expression. *)
Lemma joinClassroom_unfold db oid payload :
  joinClassroom findParticipantByEmail db oid payload
  = match ClassRoom_findById db (roomId payload) with
    | None => inl ClassRoomNotFound
    | Some c =>
        let role := pl_role (participant payload) in
        let mail := pl_email (participant payload) in
        if bool_decide (role = STUDENT) && negb (isActive c)
        then inl InactiveRoom
        else
          let join p db1 :=
            let c1 :=
              if bool_decide (role = TEACHER)
              then set_teacherParticipant c (teacherParticipant c ++ [Some (p_id p)])
              else set_studentParticipant c (studentParticipant c ++ [Some (p_id p)]) in
            inr (p, ClassRoom_save db1 (roomId payload)
                      (set_participantHistory c1
                         (participantHistory c1 ++ [Some (p_id p)]))) in
          match Participant_findOne db mail with
          | Some row =>
              if findParticipantByEmail db mail
              then inl DuplicateParticipant
              else join row db
          | None =>
              let p := mkParticipant oid (pl_name (participant payload)) mail role in
              join p (Participant_save db p)
          end
    end.
Proof.
  unfold joinClassroom.
  destruct (ClassRoom_findById db (roomId payload)) as [c |]; cbn; [| reflexivity].
  destruct (bool_decide _ && negb (isActive c)); cbn; [reflexivity |].
  destruct (Participant_findOne db _) as [row |]; cbn; [| reflexivity].
  destruct (findParticipantByEmail db _); reflexivity.
Qed.

(** X2.  Participant rows are found or created, never duplicated.  For an
    email that has a row, a successful join returns that very row, as it
    is stored (the name and the role of the payload do not reach it), and
    writes no row.  For an email that has none, it appends one row, made
    of the payload's name, email and role.  Either way the email
    resolves to the returned row afterwards. *)
Theorem joinClassroom_finds_or_creates db oid payload p db' :
  joinClassroom findParticipantByEmail db oid payload = inr (p, db') ->
  let mail := pl_email (participant payload) in
  (forall row, Participant_findOne db mail = Some row ->
     p = row /\ participants db' = participants db) /\
  (Participant_findOne db mail = None ->
     p = mkParticipant oid (pl_name (participant payload)) mail
                       (pl_role (participant payload)) /\
     participants db' = participants db ++ [p]) /\
  Participant_findOne db' mail = Some p.
Proof.
  rewrite joinClassroom_unfold.
  destruct (ClassRoom_findById db (roomId payload)) as [c |]; [| discriminate].
  cbn zeta. destruct (bool_decide _ && negb (isActive c)); [discriminate |].
  destruct (Participant_findOne db _) as [row |] eqn:Hrow.
  - destruct (findParticipantByEmail db _); [discriminate |].
    intros [= <- <-]. split; [| split].
    + intros ? [= <-]. split; reflexivity.
    + discriminate.
    + exact Hrow.
  - intros [= <- <-]. split; [| split].
    + discriminate.
    + intros _. split; reflexivity.
    + unfold Participant_findOne in *. cbn.
      rewrite (find_app_None _ _ _ Hrow). cbn. now rewrite String.eqb_refl.
Qed.

(** X3.  A successful join writes one classroom and nothing else: the other
    classrooms, all the sessions and all the event rows are as they
    were, and the classroom that was joined keeps its [roomId], its name
    and its [isActive] flag. *)
Theorem joinClassroom_frame db oid payload p db' :
  joinClassroom findParticipantByEmail db oid payload = inr (p, db') ->
  (forall key, key <> roomId payload ->
     ClassRoom_findById db' key = ClassRoom_findById db key) /\
  classSessions db' = classSessions db /\
  eventLogs db' = eventLogs db /\
  (exists c c',
     ClassRoom_findById db (roomId payload) = Some c /\
     ClassRoom_findById db' (roomId payload) = Some c' /\
     c_roomId c' = c_roomId c /\ c_name c' = c_name c /\
     isActive c' = isActive c).
Proof.
  rewrite joinClassroom_unfold.
  destruct (ClassRoom_findById db (roomId payload)) as [c |] eqn:Hroom;
    [| discriminate].
  cbn zeta. destruct (bool_decide _ && negb (isActive c)); [discriminate |].
  assert (forall (d : Store) (c1 : ClassRoom) key, key <> roomId payload ->
            ClassRoom_findById (ClassRoom_save d (roomId payload) c1) key
            = ClassRoom_findById d key) as Hother.
  { intros d c1 key Hne. unfold ClassRoom_findById, ClassRoom_save; cbn.
    now apply lookup_insert_ne. }
  destruct (Participant_findOne db _) as [row |];
    [destruct (findParticipantByEmail db _); [discriminate |] |];
    intros [= <- <-]; (split; [intros key Hne; now rewrite Hother |]);
    (split; [reflexivity |]); (split; [reflexivity |]);
    exists c; eexists; (split; [reflexivity |]);
    (split; [apply ClassRoom_findById_save |]);
    destruct (pl_role (participant payload)); cbn; auto.
Qed.

End JoinClassroomMore.

(** ** create *)

(** X5.  A room that was just created can be joined by somebody new.  The
    answer of [create] is CREATED and carries the key of the room; a
    participant whose email has no row yet then joins it as a teacher
    whatever the default of [isActive] is, and as a student exactly when
    that default is [true]; the room then holds the one participant, on
    the list of the payload's role and on the history. *)
Theorem create_then_joinClassroom
    findParticipantByEmail isActiveDefault db oid uuid payload pid joiner :
  Participant_findOne db (pl_email joiner) = None ->
  let response := fst (create isActiveDefault db oid uuid payload) in
  let db1 := snd (create isActiveDefault db oid uuid payload) in
  let row := mkParticipant pid (pl_name joiner) (pl_email joiner) (pl_role joiner) in
  let outcome :=
    joinClassroom findParticipantByEmail db1 pid (mkIJoinClassRoom oid joiner) in
  statusCode response = HTTP_CREATED /\
  data response = Some oid /\
  (pl_role joiner = STUDENT -> isActiveDefault = false ->
     outcome = inl InactiveRoom) /\
  (pl_role joiner = TEACHER \/ isActiveDefault = true ->
     exists db2,
       outcome = inr (row, db2) /\
       ClassRoom_findById db2 oid
       = Some {| c_roomId := uuid; c_name := cr_name payload;
                 isActive := isActiveDefault;
                 teacherParticipant :=
                   if bool_decide (pl_role joiner = TEACHER)
                   then [Some pid] else [];
                 studentParticipant :=
                   if bool_decide (pl_role joiner = TEACHER)
                   then [] else [Some pid];
                 participantHistory := [Some pid];
                 c_eventLog := [] |}).
Proof.
  intros Hnew. cbn zeta. split; [reflexivity |]. split; [reflexivity |].
  rewrite joinClassroom_unfold. unfold create. cbn [snd roomId participant].
  rewrite ClassRoom_findById_save. cbn zeta.
  replace (Participant_findOne (ClassRoom_save db oid _) (pl_email joiner))
    with (Participant_findOne db (pl_email joiner)) by reflexivity.
  rewrite Hnew. split.
  - intros -> ->. reflexivity.
  - intros Hok.
    assert (bool_decide (pl_role joiner = STUDENT) && negb isActiveDefault = false)
      as Hguard.
    { destruct Hok as [-> | ->]; [reflexivity |]. cbn. apply andb_false_r. }
    cbn [isActive]. rewrite Hguard. eexists. split; [reflexivity |].
    rewrite ClassRoom_findById_save.
    destruct (pl_role joiner); reflexivity.
Qed.

(** ** endClass and leaveClassSession *)

(** X6.  [endClass] does not look at [endedAt]: on a session that has ended
    already it succeeds again, and moves the end date to the new time. *)
Theorem endClass_again db now later sessionId session db1 :
  endClass db now sessionId = inr (session, db1) ->
  exists session' db2,
    endClass db1 later sessionId = inr (session', db2) /\
    endedAt session = Some now /\
    endedAt session' = Some later /\
    session' = set_endedAt session (Some later) /\
    ClassSession_findById db2 sessionId = Some session'.
Proof.
  unfold endClass.
  destruct (ClassSession_findById db sessionId) as [s |]; [| discriminate].
  cbn. intros [= <- <-]. rewrite ClassSession_findById_save. cbn.
  do 2 eexists. split; [reflexivity |]. repeat split.
  apply ClassSession_findById_save.
Qed.

(** X7.  A teacher's leave is [endClass]: same answer, same database, for
    every session id and whoever the user is. *)
Theorem leaveClassSession_teacher_is_endClass :
  forall db now sessionId userId,
    leaveClassSession db now sessionId userId TEACHER = endClass db now sessionId.
Proof.
  intros db now sessionId userId. unfold leaveClassSession, endClass.
  destruct (ClassSession_findById db sessionId) as [s |]; reflexivity.
Qed.

Lemma filter_keeps_all {A : Type} (f : A -> bool) (l : list A) :
  (forall x, In x l -> f x = true) -> List.filter f l = l.
Proof.
  induction l as [| y l IH]; cbn; [reflexivity |]. intros Hall.
  rewrite (Hall y) by auto. f_equal. apply IH. auto.
Qed.

Lemma ClassSession_save_same db key s :
  ClassSession_findById db key = Some s -> ClassSession_save db key s = db.
Proof.
  intros Hfound. destruct db as [rooms sessions rows events].
  unfold ClassSession_save, ClassSession_findById in *; cbn in *.
  f_equal. now apply insert_id.
Qed.

Lemma leaveClassSession_student_fixed db now sessionId userId session :
  ClassSession_findById db sessionId = Some session ->
  List.filter (fun participant => negb (jsEq participant (Some userId)))
              (currentParticipants session)
  = currentParticipants session ->
  leaveClassSession db now sessionId userId STUDENT = inr (session, db).
Proof.
  intros Hfound Hsame. unfold leaveClassSession. rewrite Hfound.
  destruct session; cbn in *. unfold set_currentParticipants; cbn.
  rewrite Hsame. f_equal. f_equal.
  exact (ClassSession_save_same _ _ _ Hfound).
Qed.

(** X8.  A student's leave by somebody who is not in the session changes
    nothing: the session comes back as it is, and the database is the
    one before the call. *)
Theorem leaveClassSession_student_absent db now sessionId userId session :
  ClassSession_findById db sessionId = Some session ->
  ~ In (Some userId) (currentParticipants session) ->
  leaveClassSession db now sessionId userId STUDENT = inr (session, db).
Proof.
  intros Hfound Habsent.
  apply leaveClassSession_student_fixed; [assumption |].
  apply filter_keeps_all. intros slot Hin.
  destruct (jsEq slot (Some userId)) eqn:Heq; [| reflexivity].
  apply jsEq_true in Heq. now subst.
Qed.

Lemma filter_filter_same {A : Type} (f : A -> bool) (l : list A) :
  List.filter f (List.filter f l) = List.filter f l.
Proof.
  apply filter_keeps_all. intros x Hin. now apply filter_In in Hin as [_ ?].
Qed.

(** X9.  A student's leave is idempotent: once it has succeeded, the same
    leave (at any later time) returns the same session and leaves the
    database as the first one left it. *)
Theorem leaveClassSession_student_idempotent
    db now later sessionId userId session db1 :
  leaveClassSession db now sessionId userId STUDENT = inr (session, db1) ->
  leaveClassSession db1 later sessionId userId STUDENT = inr (session, db1).
Proof.
  unfold leaveClassSession at 1.
  destruct (ClassSession_findById db sessionId) as [s |]; [| discriminate].
  cbn. intros [= <- <-].
  apply leaveClassSession_student_fixed.
  - apply ClassSession_findById_save.
  - cbn. apply filter_filter_same.
Qed.

(** ** leaveClassRoom *)

Lemma filter_jsEq_repeat (x : Ref) (l : list Ref) :
  List.filter (fun slot => jsEq slot x) l
  = repeat x (length (List.filter (fun slot => jsEq slot x) l)).
Proof.
  induction l as [| y l IH]; cbn; [reflexivity |].
  destruct (jsEq y x) eqn:Heq; [| exact IH].
  apply jsEq_true in Heq. subst y. cbn. now f_equal.
Qed.



(** ** joinSessionViaSessionList, case by case *)

Lemma ClassSession_findById_populated_eq db sessionId :
  ClassSession_findById_populated db sessionId
  = match ClassSession_findById db sessionId with
    | None => None
    | Some session => Some (session, populateClassRoomId db session)
    end.
Proof. reflexivity. Qed.

Lemma populateClassRoomId_Some db session roomKey classRoom :
  populateClassRoomId db session = Some (roomKey, classRoom) <->
  classRoomId session = Some roomKey /\ ClassRoom_findById db roomKey = Some classRoom.
Proof.
  unfold populateClassRoomId.
  destruct (classRoomId session) as [key |]; [| split; [discriminate | intros [? _]; discriminate]].
  destruct (ClassRoom_findById db key) as [c |] eqn:Hc.
  - split.
    + intros [= <- <-]. auto.
    + intros [[= <-] Hc']. rewrite Hc in Hc'. now injection Hc' as <-.
  - split; [discriminate |]. intros [[= <-] Hc']. congruence.
Qed.

Lemma joinSessionViaSessionList_found db oid sessionId payload result db' :
  joinSessionViaSessionList db oid sessionId payload = inr (result, db') ->
  exists s roomKey classRoom,
    ClassSession_findById db sessionId = Some s /\
    classRoomId s = Some roomKey /\
    ClassRoom_findById db roomKey = Some classRoom.
Proof.
  unfold joinSessionViaSessionList.
  rewrite ClassSession_findById_populated_eq.
  destruct (ClassSession_findById db sessionId) as [s |]; [| discriminate].
  cbn. destruct (populateClassRoomId db s) as [[roomKey classRoom] |] eqn:Hroom;
    [| discriminate].
  intros _. apply populateClassRoomId_Some in Hroom. eauto.
Qed.

(** X12.  The three ways [joinSessionViaSessionList] fails and the way it
    succeeds, each with the exact condition under which it happens.  The
    session is looked up first; a session whose classroom reference is
    unset or resolves to nothing is refused next; the only other refusal
    is that of a payload whose [_id] is in the session while a row with
    its email exists.  Whether the session has ended plays no part. *)
Theorem joinSessionViaSessionList_outcome db oid sessionId payload :
  let found := ClassSession_findById db sessionId in
  let outcome := joinSessionViaSessionList db oid sessionId payload in
  (outcome = inl SessionNotFound <-> found = None) /\
  (outcome = inl MissingAssociation <->
     exists s, found = Some s /\ populateClassRoomId db s = None) /\
  (outcome = inl AlreadyInSession <->
     exists s room row,
       found = Some s /\ populateClassRoomId db s = Some room /\
       Participant_findOne db (pl_email payload) = Some row /\
       In (pl__id payload) (currentParticipants s)) /\
  ((exists result db', outcome = inr (result, db')) <->
     exists s room,
       found = Some s /\ populateClassRoomId db s = Some room /\
       (Participant_findOne db (pl_email payload) = None \/
        ~ In (pl__id payload) (currentParticipants s))) /\
  (forall e, outcome = inl e ->
     e = SessionNotFound \/ e = MissingAssociation \/ e = AlreadyInSession).
Proof.
  cbn zeta. unfold joinSessionViaSessionList.
  rewrite ClassSession_findById_populated_eq.
  destruct (ClassSession_findById db sessionId) as [s |]; cbn.
  2: { repeat split; intros; break_hyps; try discriminate; simplify_eq; auto. }
  destruct (populateClassRoomId db s) as [[roomKey classRoom] |] eqn:Hroom; cbn.
  2: { repeat split; intros; break_hyps; try discriminate; simplify_eq;
       try congruence; eauto. }
  destruct (Participant_findOne db (pl_email payload)) as [row |] eqn:Hrow; cbn.
  2: { repeat split; intros; break_hyps; try discriminate; simplify_eq;
       try congruence; eauto 7. }
  destruct (List.existsb _ (currentParticipants s)) eqn:Hin; cbn.
  - apply existsb_jsEq in Hin.
    repeat split; intros; break_hyps; try discriminate; simplify_eq;
      try congruence; try contradiction; eauto 8.
  - apply existsb_jsEq_false in Hin.
    repeat split; intros; break_hyps; try discriminate; simplify_eq;
      try congruence; try contradiction; eauto 7.
Qed.

(** X13.  A session that has ended can be joined.  After [endClass], a join
    through the session list succeeds for any payload, as long as the
    session has its classroom: the session stays ended, and it has a
    current participant again. *)
Theorem endClass_then_joinSessionViaSessionList
    db now oid sessionId payload ended db1 room :
  endClass db now sessionId = inr (ended, db1) ->
  populateClassRoomId db ended = Some room ->
  exists result db2 session',
    joinSessionViaSessionList db1 oid sessionId payload = inr (result, db2) /\
    ClassSession_findById db2 sessionId = Some session' /\
    endedAt session' = Some now /\
    currentParticipants session' = [pl_id payload].
Proof.
  unfold endClass.
  destruct (ClassSession_findById db sessionId) as [s |]; [| discriminate].
  unfold orThrow, ok. intros Hend. injection Hend as <- <-.
  destruct room as [roomKey classRoom].
  intros Hroom. apply populateClassRoomId_Some in Hroom as [Hkey Hroom].
  rewrite (joinSessionViaSessionList_cases _ oid sessionId payload _ roomKey classRoom
             (ClassSession_findById_save _ _ _) Hkey Hroom).
  cbn.
  destruct (List.find _ (participants db)) as [row |];
    do 3 eexists; (split; [reflexivity |]);
    (split; [apply ClassSession_findById_save |]); split; reflexivity.
Qed.

(** X14.  A payload that carries an id cannot join a session twice: after a
    successful join with [_id] and [id] set to the same id, the same
    payload is refused with AlreadyInSession. *)
Theorem joinSessionViaSessionList_twice
    db oid oid' sessionId payload key result db1 :
  pl__id payload = Some key ->
  pl_id payload = Some key ->
  joinSessionViaSessionList db oid sessionId payload = inr (result, db1) ->
  joinSessionViaSessionList db1 oid' sessionId payload = inl AlreadyInSession.
Proof.
  intros Hid1 Hid2 Hjoin.
  destruct (joinSessionViaSessionList_found _ _ _ _ _ _ Hjoin)
    as (s & roomKey & classRoom & Hs & Hkey & Hroom).
  rewrite (joinSessionViaSessionList_cases _ _ _ _ _ _ _ Hs Hkey Hroom) in Hjoin.
  assert (exists classRoom' row,
            ClassSession_findById db1 sessionId
              = Some (withParticipant s (pl_id payload)) /\
            ClassRoom_findById db1 roomKey = Some classRoom' /\
            Participant_findOne db1 (pl_email payload) = Some row)
    as (classRoom' & row & Hs1 & Hroom1 & Hrow1).
  { destruct (Participant_findOne db (pl_email payload)) as [row |] eqn:Hrow.
    - destruct (List.existsb _ (currentParticipants s)); [discriminate |].
      injection Hjoin as <- <-.
      destruct (List.existsb _ (studentParticipant classRoom)).
      + exists classRoom, row. rewrite ClassSession_findById_save. auto.
      + eexists; exists row. rewrite ClassSession_findById_save.
        split; [reflexivity |]. split; [| exact Hrow].
        rewrite ClassRoom_findById_session_save. apply ClassRoom_findById_save.
    - cbn in Hjoin. injection Hjoin as <- <-.
      eexists; eexists. rewrite ClassSession_findById_save.
      split; [reflexivity |]. split.
      + rewrite ClassRoom_findById_session_save. apply ClassRoom_findById_save.
      + unfold Participant_findOne in *. cbn.
        rewrite (find_app_None _ _ _ Hrow). cbn. now rewrite String.eqb_refl. }
  rewrite (joinSessionViaSessionList_cases _ _ _ _ _ roomKey classRoom' Hs1 Hkey Hroom1).
  rewrite Hrow1.
  replace (List.existsb _ (currentParticipants (withParticipant s (pl_id payload))))
    with true; [reflexivity |].
  symmetry. apply existsb_jsEq. cbn. rewrite Hid1, Hid2.
  apply in_or_app. right. left. reflexivity.
Qed.

(** ** The lists of active sessions *)

Lemma listed_inj db : forall a b, listed db a = listed db b -> a = b.
Proof.
  intros [ka sa] [kb sb]. unfold listed; cbn. now intros [= -> ->].
Qed.

Lemma activeSessionsList_In db sessions :
  activeSessionsList db = inr sessions ->
  forall key s room,
    In (key, s, room) sessions <->
    ClassSession_findById db key = Some s /\ endedAt s = None /\
    room = populateClassRoomId db s.
Proof.
  unfold activeSessionsList. cbn. intros [= <-] key s room.
  rewrite in_map_iff. split.
  - intros ([k s'] & Heq & Hin). unfold listed in Heq; cbn in Heq.
    injection Heq as -> -> <-.
    apply list_elem_of_In, elem_of_map_to_list, map_lookup_filter_Some in Hin.
    cbn in Hin. tauto.
  - intros (Hs & Hactive & ->). exists (key, s). split; [reflexivity |].
    apply list_elem_of_In, elem_of_map_to_list, map_lookup_filter_Some. auto.
Qed.

Lemma activeSessionsListWithRoomId_In db roomId sessions :
  activeSessionsListWithRoomId db roomId = inr sessions ->
  forall key s room,
    In (key, s, room) sessions <->
    ClassSession_findById db key = Some s /\ endedAt s = None /\
    classRoomId s = Some roomId /\ room = populateClassRoomId db s.
Proof.
  unfold activeSessionsListWithRoomId. cbn. intros [= <-] key s room.
  rewrite in_map_iff. split.
  - intros ([k s'] & Heq & Hin). unfold listed in Heq; cbn in Heq.
    injection Heq as -> -> <-.
    apply list_elem_of_In, elem_of_map_to_list, map_lookup_filter_Some in Hin.
    cbn in Hin. tauto.
  - intros (Hs & Hactive & Hroom & ->). exists (key, s). split; [reflexivity |].
    apply list_elem_of_In, elem_of_map_to_list, map_lookup_filter_Some. auto.
Qed.

(** X15.  [activeSessionsList] never throws, not even on a database without
    sessions: its test of the array it got is never met.  It lists every
    stored session whose [endedAt] is unset, once, with its classroom
    populated, and no other session. *)
Theorem activeSessionsList_lists :
  forall db,
  exists sessions,
    activeSessionsList db = inr sessions /\
    NoDup (map (fun listing : ListedSession => fst (fst listing)) sessions) /\
    (forall key s room,
       In (key, s, room) sessions <->
       ClassSession_findById db key = Some s /\ endedAt s = None /\
       room = populateClassRoomId db s) /\
    (classSessions db = ∅ -> sessions = []).
Proof.
  intros db. eexists. split; [reflexivity |]. split; [| split].
  - rewrite map_map. cbn.
    apply (NoDup_fst_map_to_list
             (filter (fun entry : string * ClassSession => endedAt (snd entry) = None)
                     (classSessions db))).
  - now apply activeSessionsList_In.
  - intros ->. rewrite map_filter_empty, map_to_list_empty. reflexivity.
Qed.

(** X16.  [activeSessionsListWithRoomId] never throws either.  It lists the
    sessions of [activeSessionsList] whose owning reference is [roomId],
    and only those; whether a classroom with that id exists is not
    looked at. *)
Theorem activeSessionsListWithRoomId_lists :
  forall db roomId,
  exists sessions all,
    activeSessionsListWithRoomId db roomId = inr sessions /\
    activeSessionsList db = inr all /\
    (forall key s room,
       In (key, s, room) sessions <->
       In (key, s, room) all /\ classRoomId s = Some roomId).
Proof.
  intros db roomId. do 2 eexists. split; [reflexivity |]. split; [reflexivity |].
  intros key s room.
  rewrite (activeSessionsListWithRoomId_In db roomId _ eq_refl).
  rewrite (activeSessionsList_In db _ eq_refl). tauto.
Qed.

Lemma ClassSession_findById_save_ne db key key' s :
  key' <> key ->
  ClassSession_findById (ClassSession_save db key s) key'
  = ClassSession_findById db key'.
Proof.
  intros Hne. unfold ClassSession_findById, ClassSession_save; cbn.
  now apply lookup_insert_ne.
Qed.

(** X17.  Ending a session takes it off the list of active sessions and leaves
    the rest of the list as it was. *)
Theorem endClass_unlists db now sessionId session db' before after :
  endClass db now sessionId = inr (session, db') ->
  activeSessionsList db = inr before ->
  activeSessionsList db' = inr after ->
  forall listing,
    In listing after <-> In listing before /\ fst (fst listing) <> sessionId.
Proof.
  unfold endClass.
  destruct (ClassSession_findById db sessionId) as [s0 |]; [| discriminate].
  unfold orThrow, ok. intros Hend. injection Hend as <- <-.
  intros Hbefore Hafter [[key s] room]. cbn [fst].
  rewrite (activeSessionsList_In _ _ Hafter), (activeSessionsList_In _ _ Hbefore).
  destruct (decide (key = sessionId)) as [-> | Hne].
  - rewrite ClassSession_findById_save. split.
    + intros ([= <-] & Hopen & _). discriminate.
    + intros [_ Hne]. contradiction.
  - rewrite (ClassSession_findById_save_ne _ _ _ _ Hne).
    change (populateClassRoomId (ClassSession_save db sessionId _) s)
      with (populateClassRoomId db s).
    tauto.
Qed.

(** X18.  A session that was just started is on the list of its room, although
    [startClass] never looked the room up: when no classroom has that id
    the session is listed with no classroom.  The sessions that were
    listed before still are. *)
Theorem startClass_lists db now oid roomId teacherId :
  ClassSession_findById db oid = None ->
  let session := snd (fst (startClass db now oid roomId teacherId)) in
  let db' := snd (startClass db now oid roomId teacherId) in
  exists before after ofRoom,
    activeSessionsList db = inr before /\
    activeSessionsList db' = inr after /\
    activeSessionsListWithRoomId db' roomId = inr ofRoom /\
    In (oid, session, populateClassRoomId db session) ofRoom /\
    (ClassRoom_findById db roomId = None -> In (oid, session, None) ofRoom) /\
    (forall listing, In listing before -> In listing after).
Proof.
  intros Hfresh. cbn zeta.
  do 3 eexists. split; [reflexivity |]. split; [reflexivity |].
  split; [reflexivity |].
  assert (In (oid, snd (fst (startClass db now oid roomId teacherId)),
              populateClassRoomId db (snd (fst (startClass db now oid roomId teacherId))))
             (map (listed (snd (startClass db now oid roomId teacherId)))
                (map_to_list
                   (filter (fun entry : string * ClassSession =>
                              endedAt (snd entry) = None /\
                              classRoomId (snd entry) = Some roomId)
                      (classSessions (snd (startClass db now oid roomId teacherId)))))))
    as Hlisted.
  { apply (activeSessionsListWithRoomId_In _ roomId _ eq_refl).
    cbn. rewrite ClassSession_findById_save. auto. }
  split; [exact Hlisted |]. split.
  - intros Hnone. cbn in Hlisted. unfold populateClassRoomId in Hlisted.
    cbn in Hlisted. rewrite Hnone in Hlisted. exact Hlisted.
  - intros [[key s] room] Hin.
    apply (activeSessionsList_In _ _ eq_refl) in Hin as (Hs & Hopen & ->).
    apply (activeSessionsList_In _ _ eq_refl). cbn.
    rewrite ClassSession_findById_save_ne by congruence. auto.
Qed.

(** ** findByClassSession and findByClassRoomId *)

Lemma fold_left_sortParticipant (l teachers students : list Participant) :
  fold_left sortParticipant l (teachers, students)
  = (teachers ++ List.filter (fun p => bool_decide (p_role p = TEACHER)) l,
     students ++ List.filter (fun p => negb (bool_decide (p_role p = TEACHER))) l).
Proof.
  revert teachers students.
  induction l as [| p l IH]; intros teachers students; cbn.
  - now rewrite !app_nil_r.
  - unfold sortParticipant at 2. unfold push.
    destruct (bool_decide (p_role p = TEACHER)); cbn; rewrite IH; cbn;
      now rewrite <- app_assoc.
Qed.

Lemma filter_split_Permutation {A : Type} (f : A -> bool) (l : list A) :
  Permutation (List.filter f l ++ List.filter (fun x => negb (f x)) l) l.
Proof.
  induction l as [| x l IH]; cbn; [constructor |].
  destruct (f x); cbn.
  - now constructor.
  - rewrite <- Permutation_middle. now constructor.
Qed.

(** X19.  The view of a session sorts its current participants by role and
    loses none: the teachers are those whose stored role is TEACHER, in
    the order of the session, the students are all the others, and the two
    lists together are a rearrangement of the populated participants.
    The name is that of the session's classroom. *)
Theorem findByClassSession_view db sessionId view :
  findByClassSession db sessionId = Returned (Some view) ->
  exists session classRoom,
    ClassSession_findById db sessionId = Some session /\
    populateClassRoomId db session = Some classRoom /\
    sv_name view = c_name (snd classRoom) /\
    sv_currentParticipants view
      = populateParticipants db (currentParticipants session) /\
    sv_teacherParticipant view
      = List.filter (fun p => bool_decide (p_role p = TEACHER))
                    (sv_currentParticipants view) /\
    sv_studentParticipant view
      = List.filter (fun p => negb (bool_decide (p_role p = TEACHER)))
                    (sv_currentParticipants view) /\
    Permutation (sv_teacherParticipant view ++ sv_studentParticipant view)
                (sv_currentParticipants view).
Proof.
  unfold findByClassSession.
  destruct (ClassSession_findById db sessionId) as [session |]; [| discriminate].
  cbn zeta. rewrite fold_left_sortParticipant. cbn [fst snd app].
  destruct (populateClassRoomId db session) as [classRoom |] eqn:Hroom;
    [| discriminate].
  intros [= <-]. exists session, classRoom. cbn.
  split; [reflexivity |]. split; [exact Hroom |]. repeat split.
  apply filter_split_Permutation.
Qed.

(** X20.  When [findByClassSession] does not return a view: it returns [null]
    exactly for a session id that is not stored, and it ends in a
    TypeError exactly for a stored session whose classroom reference is
    unset or resolves to nothing. *)
Theorem findByClassSession_completion :
  forall db sessionId,
    (findByClassSession db sessionId = Returned None <->
     ClassSession_findById db sessionId = None) /\
    (findByClassSession db sessionId = TypeErrorThrown <->
     exists session,
       ClassSession_findById db sessionId = Some session /\
       populateClassRoomId db session = None).
Proof.
  intros db sessionId. unfold findByClassSession.
  destruct (ClassSession_findById db sessionId) as [session |]; cbn zeta.
  - destruct (populateClassRoomId db session) as [classRoom |] eqn:Hroom.
    + split; split; intros; break_hyps; simplify_eq; congruence.
    + split; split; intros; break_hyps; simplify_eq; eauto.
  - split; split; intros; break_hyps; simplify_eq; auto.
Qed.

(** X21.  [startClass] trusts its arguments, and the view shows it.  For a
    room that does not exist the new session cannot be viewed: the view
    ends in a TypeError.  For a room that exists, the starter is shown
    under the role of its stored row: somebody stored as a student who
    starts a class is listed with the students, and the teacher list of
    the view is empty. *)
Theorem startClass_then_findByClassSession db now oid roomId teacherId :
  let db' := snd (startClass db now oid roomId teacherId) in
  (ClassRoom_findById db roomId = None ->
     findByClassSession db' oid = TypeErrorThrown) /\
  (forall classRoom row,
     ClassRoom_findById db roomId = Some classRoom ->
     Participant_findById db teacherId = Some row ->
     exists view,
       findByClassSession db' oid = Returned (Some view) /\
       sv_name view = c_name classRoom /\
       sv_teacherParticipant view
         = (if bool_decide (p_role row = TEACHER) then [row] else []) /\
       sv_studentParticipant view
         = (if bool_decide (p_role row = TEACHER) then [] else [row])).
Proof.
  cbn zeta. unfold findByClassSession, startClass. cbn [snd].
  rewrite ClassSession_findById_save. cbn zeta.
  assert (forall s, populateClassRoomId (ClassSession_save db oid s) s
                    = populateClassRoomId db s) as -> by reflexivity.
  assert (forall s l, populateParticipants (ClassSession_save db oid s) l
                      = populateParticipants db l) as -> by reflexivity.
  unfold populateClassRoomId, populateParticipants. cbn.
  split.
  - intros ->. reflexivity.
  - intros classRoom row -> ->. cbn. unfold sortParticipant. cbn.
    destruct (bool_decide (p_role row = TEACHER)); eexists; cbn;
      (split; [reflexivity |]); cbn; auto.
Qed.

Lemma Participant_findById_some db row :
  In row (participants db) ->
  exists q, Participant_findById db (p_id row) = Some q /\ p_id q = p_id row.
Proof.
  unfold Participant_findById. intros Hin.
  destruct (List.find _ (participants db)) as [q |] eqn:Hfind.
  - exists q. split; [reflexivity |].
    apply find_some in Hfind as [_ Heq]. now apply String.eqb_eq in Heq.
  - exfalso. apply (find_none _ _ Hfind) in Hin.
    now rewrite String.eqb_refl in Hin.
Qed.

Lemma populateParticipants_In db slots key q :
  In (Some key) slots ->
  Participant_findById db key = Some q ->
  In q (populateParticipants db slots).
Proof.
  intros Hin Hq. unfold populateParticipants.
  apply list_elem_of_In, list_elem_of_omap. exists (Some key).
  split; [now apply list_elem_of_In | exact Hq].
Qed.

Section JoinThenFind.

Variable findParticipantByEmail : Store -> string -> bool.

(** X22.  After a successful join the state of the classroom, as the gateway
    fetches it for its broadcast, shows the joiner: a row with the id of
    the returned participant is on the populated list of the role that
    the payload gave. *)
Theorem joinClassroom_then_findByClassRoomId db oid payload p db' :
  joinClassroom findParticipantByEmail db oid payload = inr (p, db') ->
  exists state shown,
    findByClassRoomId db' (roomId payload) = Some state /\
    p_id shown = p_id p /\
    In shown (if bool_decide (pl_role (participant payload) = TEACHER)
              then pc_teacherParticipant state
              else pc_studentParticipant state).
Proof.
  rewrite joinClassroom_unfold.
  destruct (ClassRoom_findById db (roomId payload)) as [c |]; [| discriminate].
  cbn zeta. destruct (bool_decide _ && negb (isActive c)); [discriminate |].
  assert (forall (d : Store) (q : Participant) (c1 : ClassRoom),
            In q (participants d) ->
            In (Some (p_id q))
               (if bool_decide (pl_role (participant payload) = TEACHER)
                then teacherParticipant c1 else studentParticipant c1) ->
            exists state shown,
              findByClassRoomId (ClassRoom_save d (roomId payload) c1)
                                (roomId payload) = Some state /\
              p_id shown = p_id q /\
              In shown (if bool_decide (pl_role (participant payload) = TEACHER)
                        then pc_teacherParticipant state
                        else pc_studentParticipant state)) as Hshown.
  { intros d q c1 Hq Hslot.
    destruct (Participant_findById_some d q Hq) as (shown & Hfind & Hid).
    unfold findByClassRoomId. rewrite ClassRoom_findById_save.
    do 2 eexists. split; [reflexivity |]. split; [exact Hid |].
    destruct (bool_decide (pl_role (participant payload) = TEACHER)); cbn;
      now apply (populateParticipants_In _ _ (p_id q)). }
  destruct (Participant_findOne db _) as [row |] eqn:Hrow;
    [destruct (findParticipantByEmail db _); [discriminate |] |];
    intros [= <- <-]; apply Hshown.
  - unfold Participant_findOne in Hrow. now apply find_some in Hrow as [? _].
  - destruct (pl_role (participant payload)); simpl;
      apply in_or_app; right; left; reflexivity.
  - cbn. apply in_or_app. right. left. reflexivity.
  - destruct (pl_role (participant payload)); simpl;
      apply in_or_app; right; left; reflexivity.
Qed.

End JoinThenFind.

(** ** What every run of the service keeps *)

Lemma ClassRoom_findById_save_ne db key key' c :
  key' <> key ->
  ClassRoom_findById (ClassRoom_save db key c) key' = ClassRoom_findById db key'.
Proof.
  intros Hne. unfold ClassRoom_findById, ClassRoom_save; cbn.
  now apply lookup_insert_ne.
Qed.

Lemma keeps_refl db : keeps db db.
Proof.
  repeat split; try reflexivity; intros key x Hx; exists x; repeat split; auto.
Qed.

Lemma keeps_trans db1 db2 db3 : keeps db1 db2 -> keeps db2 db3 -> keeps db1 db3.
Proof.
  intros (Hc12 & Hs12 & Hp12) (Hc23 & Hs23 & Hp23). repeat split.
  - intros key c Hc.
    destruct (Hc12 key c Hc) as (c2 & Hc2 & Hid & Hname & Hact & Hhist).
    destruct (Hc23 key c2 Hc2) as (c3 & Hc3 & Hid' & Hname' & Hact' & Hhist').
    exists c3. repeat split; try congruence. now transitivity (participantHistory c2).
  - intros key s Hs.
    destruct (Hs12 key s Hs) as (s2 & Hs2 & Hstart & Hroom & Hhist & Hend).
    destruct (Hs23 key s2 Hs2) as (s3 & Hs3 & Hstart' & Hroom' & Hhist' & Hend').
    exists s3. repeat split; try congruence; auto.
    now transitivity (participantsHistory s2).
  - now transitivity (participants db2).
Qed.

(** Saving a classroom over its older self, or under a key that is not
    in use. *)
Lemma keeps_ClassRoom_save db key c' :
  (forall c, ClassRoom_findById db key = Some c ->
     c_roomId c' = c_roomId c /\ c_name c' = c_name c /\
     isActive c' = isActive c /\
     participantHistory c `prefix_of` participantHistory c') ->
  keeps db (ClassRoom_save db key c').
Proof.
  intros Hgrows. repeat split; try reflexivity.
  - intros key0 c Hc. destruct (decide (key0 = key)) as [-> | Hne].
    + exists c'. rewrite ClassRoom_findById_save.
      destruct (Hgrows c Hc) as (? & ? & ? & ?). auto.
    + exists c. rewrite ClassRoom_findById_save_ne by assumption.
      repeat split; auto.
  - intros key0 s Hs. exists s. repeat split; auto.
Qed.

Lemma keeps_ClassSession_save db key s' :
  (forall s, ClassSession_findById db key = Some s ->
     startedAt s' = startedAt s /\ classRoomId s' = classRoomId s /\
     participantsHistory s `prefix_of` participantsHistory s' /\
     (endedAt s <> None -> endedAt s' <> None)) ->
  keeps db (ClassSession_save db key s').
Proof.
  intros Hgrows. repeat split; try reflexivity.
  - intros key0 c Hc. exists c. repeat split; auto.
  - intros key0 s Hs. destruct (decide (key0 = key)) as [-> | Hne].
    + exists s'. rewrite ClassSession_findById_save.
      destruct (Hgrows s Hs) as (? & ? & ? & ?). auto.
    + exists s. rewrite ClassSession_findById_save_ne by assumption.
      repeat split; auto.
Qed.

Lemma keeps_Participant_save db p : keeps db (Participant_save db p).
Proof.
  repeat split.
  - intros key c Hc. exists c. repeat split; auto.
  - intros key s Hs. exists s. repeat split; auto.
  - cbn. now apply prefix_app_r.
Qed.

Section RunsKeep.

Variable findParticipantByEmail : Store -> string -> bool.
Variable isActiveDefault : bool.

Lemma step_keeps db db' :
  step findParticipantByEmail isActiveDefault db db' -> keeps db db'.
Proof.
  intros [oid uuid payload Hfresh <-
         | oid payload p Hjoin
         | now oid roomId teacherId Hfresh <-
         | now sessionId session Hend
         | now sessionId userId role session Hleave
         | oid sessionId payload result Hjoin].
  - (* create *)
    apply keeps_ClassRoom_save. intros c Hc. congruence.
  - (* joinClassroom *)
    rewrite joinClassroom_unfold in Hjoin.
    destruct (ClassRoom_findById db (roomId payload)) as [c |] eqn:Hc;
      [| discriminate].
    cbn zeta in Hjoin.
    destruct (bool_decide _ && negb (isActive c)); [discriminate |].
    destruct (Participant_findOne db _) as [row |];
      [destruct (findParticipantByEmail db _); [discriminate |] |];
      injection Hjoin as <- <-.
    + apply keeps_ClassRoom_save. intros c0 Hc0.
      rewrite Hc in Hc0. injection Hc0 as <-.
      destruct (pl_role (participant payload)); cbn;
        repeat split; now apply prefix_app_r.
    + eapply keeps_trans; [apply keeps_Participant_save |].
      apply keeps_ClassRoom_save. intros c0 Hc0.
      change (ClassRoom_findById (Participant_save db _) (roomId payload))
        with (ClassRoom_findById db (roomId payload)) in Hc0.
      rewrite Hc in Hc0. injection Hc0 as <-.
      destruct (pl_role (participant payload)); cbn;
        repeat split; now apply prefix_app_r.
  - (* startClass *)
    apply keeps_ClassSession_save. intros s Hs. congruence.
  - (* endClass *)
    unfold endClass in Hend.
    destruct (ClassSession_findById db sessionId) as [s |] eqn:Hs;
      [| discriminate].
    unfold orThrow, ok in Hend. injection Hend as <- <-.
    apply keeps_ClassSession_save. intros s0 Hs0.
    rewrite Hs in Hs0. injection Hs0 as <-. cbn. repeat split; auto.
  - (* leaveClassSession *)
    unfold leaveClassSession in Hleave.
    destruct (ClassSession_findById db sessionId) as [s |] eqn:Hs;
      [| discriminate].
    unfold orThrow, ok in Hleave. injection Hleave as <- <-.
    apply keeps_ClassSession_save. intros s0 Hs0.
    rewrite Hs in Hs0. injection Hs0 as <-.
    destruct role; cbn; repeat split; auto.
  - (* joinSessionViaSessionList *)
    destruct (joinSessionViaSessionList_found _ _ _ _ _ _ Hjoin)
      as (s & roomKey & classRoom & Hs & Hkey & Hroom).
    rewrite (joinSessionViaSessionList_cases _ _ _ _ _ _ _ Hs Hkey Hroom) in Hjoin.
    assert (forall d,
              ClassSession_findById d sessionId = Some s ->
              keeps d (ClassSession_save d sessionId
                         (withParticipant s (pl_id payload)))) as Hsession.
    { intros d Hd. apply keeps_ClassSession_save. intros s0 Hs0.
      rewrite Hd in Hs0. injection Hs0 as <-. cbn.
      repeat split; auto. now apply prefix_app_r. }
    assert (forall d,
              ClassRoom_findById d roomKey = Some classRoom ->
              keeps d (ClassRoom_save d roomKey
                         (withStudent classRoom (pl_id payload)))) as Hclass.
    { intros d Hd. apply keeps_ClassRoom_save. intros c0 Hc0.
      rewrite Hd in Hc0. injection Hc0 as <-. cbn.
      repeat split; auto. now apply prefix_app_r. }
    destruct (Participant_findOne db (pl_email payload)) as [row |].
    + destruct (List.existsb _ (currentParticipants s)); [discriminate |].
      injection Hjoin as <- <-.
      destruct (List.existsb _ (studentParticipant classRoom)).
      * now apply Hsession.
      * eapply keeps_trans; [apply (Hclass db Hroom) |]. now apply Hsession.
    + cbn zeta in Hjoin. injection Hjoin as <- <-.
      eapply keeps_trans; [apply keeps_Participant_save |].
      eapply keeps_trans; [apply Hclass; exact Hroom |].
      now apply Hsession.
Qed.

(** X23.  Nothing is ever lost.  Over any number of successful calls of the
    writing methods ([create], [joinClassroom], [startClass], [endClass],
    [leaveClassSession], [joinSessionViaSessionList]), every classroom
    stays stored under its key with its [roomId], name and [isActive]
    flag, every session stays stored with its [startedAt] and its
    classroom reference, both histories only grow at their end, a session
    that has ended stays ended, and no Participant row is removed or
    changed. *)
Theorem run_keeps db db' :
  rtc (step findParticipantByEmail isActiveDefault) db db' -> keeps db db'.
Proof.
  induction 1 as [db | db db1 db2 Hstep _ IH].
  - apply keeps_refl.
  - eapply keeps_trans; [apply step_keeps; exact Hstep | exact IH].
Qed.

End RunsKeep.

Lemma currentInHistory_ClassRoom_save db key c :
  currentInHistory db ->
  incl (teacherParticipant c ++ studentParticipant c) (participantHistory c) ->
  currentInHistory (ClassRoom_save db key c).
Proof.
  intros [Hrooms Hsessions] Hc. split.
  - intros key0 c0. destruct (decide (key0 = key)) as [-> | Hne].
    + rewrite ClassRoom_findById_save. now intros [= <-].
    + rewrite ClassRoom_findById_save_ne by assumption. apply Hrooms.
  - exact Hsessions.
Qed.

Lemma currentInHistory_ClassSession_save db key s :
  currentInHistory db ->
  incl (currentParticipants s) (participantsHistory s) ->
  currentInHistory (ClassSession_save db key s).
Proof.
  intros [Hrooms Hsessions] Hs. split.
  - exact Hrooms.
  - intros key0 s0. destruct (decide (key0 = key)) as [-> | Hne].
    + rewrite ClassSession_findById_save. now intros [= <-].
    + rewrite ClassSession_findById_save_ne by assumption. apply Hsessions.
Qed.

Lemma currentInHistory_Participant_save db p :
  currentInHistory db -> currentInHistory (Participant_save db p).
Proof. intros H. exact H. Qed.

Lemma incl_push_both {A : Type} (current history : list A) (x : A) :
  incl current history -> incl (current ++ [x]) (history ++ [x]).
Proof.
  intros Hincl y Hy. apply in_app_or in Hy as [Hy | Hy]; apply in_or_app; auto.
Qed.

Lemma incl_insert_both {A : Type} (front back history : list A) (x : A) :
  incl (front ++ back) history -> incl ((front ++ [x]) ++ back) (history ++ [x]).
Proof.
  intros Hincl y Hy. apply in_or_app.
  apply in_app_or in Hy as [Hy | Hy]; [apply in_app_or in Hy as [Hy | Hy] |].
  - left. apply Hincl, in_or_app. auto.
  - auto.
  - left. apply Hincl, in_or_app. auto.
Qed.

Section RunsInvariant.

Variable findParticipantByEmail : Store -> string -> bool.
Variable isActiveDefault : bool.

Lemma step_currentInHistory db db' :
  step findParticipantByEmail isActiveDefault db db' ->
  currentInHistory db -> currentInHistory db'.
Proof.
  intros [oid uuid payload Hfresh <-
         | oid payload p Hjoin
         | now oid roomId teacherId Hfresh <-
         | now sessionId session Hend
         | now sessionId userId role session Hleave
         | oid sessionId payload result Hjoin] Hinv.
  - (* create *)
    apply currentInHistory_ClassRoom_save; [assumption |]. cbn. apply incl_nil_l.
  - (* joinClassroom *)
    rewrite joinClassroom_unfold in Hjoin.
    destruct (ClassRoom_findById db (roomId payload)) as [c |] eqn:Hc;
      [| discriminate].
    cbn zeta in Hjoin.
    destruct (bool_decide _ && negb (isActive c)); [discriminate |].
    pose proof (proj1 Hinv _ _ Hc) as Hincl.
    destruct (Participant_findOne db _) as [row |];
      [destruct (findParticipantByEmail db _); [discriminate |] |];
      injection Hjoin as <- <-;
      apply currentInHistory_ClassRoom_save; try assumption;
      destruct (pl_role (participant payload)); simpl;
      try (now apply incl_insert_both);
      rewrite app_assoc; now apply incl_push_both.
  - (* startClass *)
    apply currentInHistory_ClassSession_save; [assumption |]. cbn.
    apply incl_refl.
  - (* endClass *)
    unfold endClass in Hend.
    destruct (ClassSession_findById db sessionId) as [s |]; [| discriminate].
    unfold orThrow, ok in Hend. injection Hend as <- <-.
    apply currentInHistory_ClassSession_save; [assumption |]. cbn.
    apply incl_nil_l.
  - (* leaveClassSession *)
    unfold leaveClassSession in Hleave.
    destruct (ClassSession_findById db sessionId) as [s |] eqn:Hs;
      [| discriminate].
    unfold orThrow, ok in Hleave. injection Hleave as <- <-.
    apply currentInHistory_ClassSession_save; [assumption |].
    destruct role; cbn; [apply incl_nil_l |].
    intros slot Hin. apply filter_In in Hin as [Hin _].
    now apply (proj2 Hinv _ _ Hs).
  - (* joinSessionViaSessionList *)
    destruct (joinSessionViaSessionList_found _ _ _ _ _ _ Hjoin)
      as (s & roomKey & classRoom & Hs & Hkey & Hroom).
    rewrite (joinSessionViaSessionList_cases _ _ _ _ _ _ _ Hs Hkey Hroom) in Hjoin.
    pose proof (proj1 Hinv _ _ Hroom) as Hclass.
    pose proof (proj2 Hinv _ _ Hs) as Hsession.
    assert (incl (currentParticipants (withParticipant s (pl_id payload)))
                 (participantsHistory (withParticipant s (pl_id payload))))
      as Hsession' by (cbn; now apply incl_push_both).
    assert (incl (teacherParticipant (withStudent classRoom (pl_id payload))
                  ++ studentParticipant (withStudent classRoom (pl_id payload)))
                 (participantHistory (withStudent classRoom (pl_id payload))))
      as Hclass' by (cbn; rewrite app_assoc; now apply incl_push_both).
    destruct (Participant_findOne db (pl_email payload)) as [row |].
    + destruct (List.existsb _ (currentParticipants s)); [discriminate |].
      injection Hjoin as <- <-.
      apply currentInHistory_ClassSession_save; [| assumption].
      destruct (List.existsb _ (studentParticipant classRoom)); [assumption |].
      now apply currentInHistory_ClassRoom_save.
    + cbn zeta in Hjoin. injection Hjoin as <- <-.
      apply currentInHistory_ClassSession_save; [| assumption].
      now apply currentInHistory_ClassRoom_save.
Qed.

(** X24.  Whoever is current has been recorded.  In every database that the
    writing methods of the service can build from the empty one, each
    slot on a classroom's teacher or student list is also on that
    classroom's history, and each slot of a session's
    [currentParticipants] is also on its [participantsHistory]. *)
Theorem reachable_currentInHistory db :
  rtc (step findParticipantByEmail isActiveDefault) emptyStore db ->
  currentInHistory db.
Proof.
  assert (currentInHistory emptyStore) as Hempty.
  { split; intros key x Hx; unfold ClassRoom_findById, ClassSession_findById in Hx;
      cbn in Hx; now rewrite lookup_empty in Hx. }
  generalize dependent emptyStore. intros start Hstart Hrun.
  induction Hrun as [db | db db1 db2 Hstep _ IH]; [assumption |].
  apply IH. now apply (step_currentInHistory db db1).
Qed.

End RunsInvariant.

(** ** The draft's leaveClassSession *)

(** X25.  In the draft of the service a leave of a stored session ends
    it and empties it, whoever leaves.  The call succeeds; the strict
    comparison of a slot (an ObjectId) with the user id (a string) is
    never true, so [currentParticipants] becomes empty, where the history,
    the start and the owner stay; [endedAt] is set; the session is saved;
    the call has the very result of [endClass]; and the session is off
    the list of active sessions.  On a session that is not stored the
    call throws 'Session does not exist', as [endClass] does. *)
Theorem Earlier_leaveClassSession_ends db now sessionId userId stored :
  ClassSession_findById db sessionId = Some stored ->
  exists session db',
    Earlier.leaveClassSession db now sessionId userId = inr (session, db') /\
    endedAt session = Some now /\
    currentParticipants session = [] /\
    participantsHistory session = participantsHistory stored /\
    startedAt session = startedAt stored /\
    classRoomId session = classRoomId stored /\
    s_eventLog session = s_eventLog stored /\
    endClass db now sessionId = inr (session, db') /\
    ClassSession_findById db' sessionId = Some session /\
    (forall listed s room,
       activeSessionsList db' = inr listed -> ~ In (sessionId, s, room) listed) /\
    (forall other,
       ClassSession_findById db other = None ->
       Earlier.leaveClassSession db now other userId = inl SessionDoesNotExist /\
       endClass db now other = inl SessionDoesNotExist).
Proof.
  intros Hfound. unfold Earlier.leaveClassSession, endClass.
  rewrite Hfound. unfold orThrow, ok. rewrite Earlier_filter_nil.
  do 2 eexists. split; [reflexivity |].
  split; [reflexivity |]. split; [reflexivity |]. split; [reflexivity |].
  split; [reflexivity |]. split; [reflexivity |]. split; [reflexivity |].
  split; [reflexivity |]. split; [| split].
  - apply ClassSession_findById_save.
  - intros listed s room Hlist Hin.
    apply (activeSessionsList_In _ _ Hlist) in Hin as (Hs & Hopen & _).
    rewrite ClassSession_findById_save in Hs. injection Hs as <-.
    discriminate.
  - intros other Hmissing. rewrite Hmissing. split; reflexivity.
Qed.

(** * Properties of the gateway *)

Lemma truthy_Some field : truthy field = true -> exists s, field = Some s /\ s <> "".
Proof.
  destruct field as [s |]; [| discriminate]. cbn.
  intros Hs. exists s. split; [reflexivity |].
  intros ->. discriminate.
Qed.

Lemma truthy_nonempty s : s <> "" -> truthy (Some s) = true.
Proof.
  intros Hs. cbn. destruct (String.eqb s "") eqn:Heq; [| reflexivity].
  apply String.eqb_eq in Heq. contradiction.
Qed.

Section GatewayJoin.

Variable findParticipantByEmail : Store -> string -> bool.

(** X26.  What a socket may do after it has joined follows the Participant row
    that [joinClassroom] returned, not the payload.  After a successful
    join the socket is in the room and carries the row's id and role.  If
    the stored role is STUDENT, the socket can neither start nor end a
    class: both handlers leave the database and the socket as they are
    and emit one error.  If it is TEACHER (and the ids are not empty
    strings) the socket passes the teacher test. *)
Theorem handleJoinClassroom_permission oid db socket data p db1 :
  joinClassroom findParticipantByEmail db oid data = inr (p, db1) ->
  exists socket' emitted,
    handleJoinClassroom findParticipantByEmail oid db socket data
      = (db1, socket', emitted) /\
    sk_data socket'
      = mkSocketData (Some (p_id p)) (Some (roomId data)) (Some (p_role p))
                     (sd_sessionId (sk_data socket)) /\
    In (roomId data) (sk_rooms socket') /\
    (p_role p = STUDENT ->
       forall loaded now oid',
         handleStartClass loaded oid' db1 socket'
           = (db1, socket', [emitError "Only teachers can start the class"]) /\
         handleEndClass now db1 socket'
           = (db1, socket', [emitError "Only teachers can end the class"])) /\
    (p_role p = TEACHER -> roomId data <> "" -> p_id p <> "" ->
       validateTeacherPermission socket' = true).
Proof.
  intros Hjoin. unfold handleJoinClassroom. rewrite Hjoin.
  do 2 eexists. split; [reflexivity |]. split; [reflexivity |]. split; [| split].
  - cbn. apply in_or_app. right. left. reflexivity.
  - intros Hrole loaded now oid'.
    unfold handleStartClass, handleEndClass, validateTeacherPermission. cbn.
    rewrite Hrole. rewrite !andb_false_r. cbn. split; reflexivity.
  - intros Hrole Hroom Hid. unfold validateTeacherPermission. cbn [sk_data sd_roomId sd_userId sd_role].
    rewrite Hrole, (truthy_nonempty _ Hroom), (truthy_nonempty _ Hid).
    reflexivity.
Qed.

(** X27.  A participant who joined a classroom cannot leave through the
    gateway unless the same socket has started a class: joining sets no
    session id, so the leave is answered with the error 'Session does not
    exist', the database is untouched and the socket keeps its data. *)
Theorem handleJoinClassroom_then_leave oid now db socket data p db1 :
  joinClassroom findParticipantByEmail db oid data = inr (p, db1) ->
  sd_sessionId (sk_data socket) = None ->
  roomId data <> "" -> p_id p <> "" ->
  exists socket' emitted,
    handleJoinClassroom findParticipantByEmail oid db socket data
      = (db1, socket', emitted) /\
    handleLeaveClassroom now db1 socket'
      = (db1, socket', [emitError "Session does not exist"]).
Proof.
  intros Hjoin Hnone Hroom Hid. unfold handleJoinClassroom. rewrite Hjoin.
  do 2 eexists. split; [reflexivity |].
  unfold handleLeaveClassroom, handleLeaveClassroomOf, socketJoin.
  cbn [sk_data sd_roomId sd_userId sd_sessionId].
  rewrite (truthy_nonempty _ Hroom), (truthy_nonempty _ Hid), Hnone.
  reflexivity.
Qed.

End GatewayJoin.

(** X28.  A leave that succeeds, whichever [leaveClassSession] the
    service has: the session that the method returned goes to the others
    in the session's room and 'leave-success' to the socket; the user,
    the room and the role of the socket are cleared but not its session
    id; the socket is taken out of the room named after the session only,
    and stays in a room it is in under another name, such as the
    classroom's.  A second leave is answered with 'Not in a classroom'
    and a disconnect does nothing; neither touches the database. *)
Theorem handleLeaveClassroom_left
    (bound : BoundLeave) now later db socket roomId userId sessionId session db1 :
  sd_roomId (sk_data socket) = Some roomId -> roomId <> "" ->
  sd_userId (sk_data socket) = Some userId -> userId <> "" ->
  sd_sessionId (sk_data socket) = Some sessionId ->
  bound db now sessionId userId = inr (session, db1) ->
  exists socket',
    handleLeaveClassroomOf bound now db socket
      = (db1, socket',
         [mkEmission (ToRoomButSender sessionId) "classroom-session-updated"
            (SessionBody sessionId session);
          mkEmission ToSocket "leave-success"
            (MessageBody "Left classroom successfully")]) /\
    sk_data socket' = mkSocketData None None None (Some sessionId) /\
    (forall room, room <> sessionId ->
       (In room (sk_rooms socket') <-> In room (sk_rooms socket))) /\
    ~ In sessionId (sk_rooms socket') /\
    handleLeaveClassroomOf bound later db1 socket'
      = (db1, socket', [emitError "Not in a classroom"]) /\
    handleDisconnectOf bound later db1 socket' = (db1, socket', []).
Proof.
  intros Hroom Hroom' Huser Huser' Hsession Hleave.
  unfold handleLeaveClassroomOf at 1.
  rewrite Hroom, Huser, Hsession.
  rewrite (truthy_nonempty _ Hroom'), (truthy_nonempty _ Huser').
  cbn [negb orb callLeaveClassSessionOf]. rewrite Hleave. cbn [fst snd ok].
  eexists. split; [reflexivity |]. cbn [sk_data sk_rooms clearSocketData socketLeave].
  rewrite Hsession. split; [reflexivity |]. split; [| split; [| split]].
  - intros room Hne. rewrite filter_In. split; [tauto |].
    intros Hin. split; [assumption |].
    destruct (String.eqb room sessionId) eqn:Heq; [| reflexivity].
    apply String.eqb_eq in Heq. contradiction.
  - rewrite filter_In. intros [_ Hkeep].
    now rewrite String.eqb_refl in Hkeep.
  - reflexivity.
  - reflexivity.
Qed.

(** X29.  A disconnect, whichever [leaveClassSession] the service has.
    It never changes the socket and never emits to it.  It does nothing
    unless the socket has a room, a user and a session.  When it has
    them and the leave fails, nothing is emitted and the database is
    left as it is; when the leave succeeds, the database is the one the
    leave returned and the returned session goes, once, to the others in
    the classroom's room. *)
Theorem handleDisconnect_quiet :
  forall (bound : BoundLeave) now db socket,
    let result := handleDisconnectOf bound now db socket in
    snd (fst result) = socket /\
    Forall (fun emission => em_target emission <> ToSocket) (snd result) /\
    (truthy (sd_roomId (sk_data socket)) = false \/
     truthy (sd_userId (sk_data socket)) = false \/
     truthy (sd_sessionId (sk_data socket)) = false ->
       result = (db, socket, [])) /\
    (forall roomId userId sessionId,
       sd_roomId (sk_data socket) = Some roomId -> roomId <> "" ->
       sd_userId (sk_data socket) = Some userId -> userId <> "" ->
       sd_sessionId (sk_data socket) = Some sessionId -> sessionId <> "" ->
       (forall error,
          bound db now sessionId userId = inl error ->
          result = (db, socket, [])) /\
       (forall session db',
          bound db now sessionId userId = inr (session, db') ->
          result
          = (db', socket,
             [mkEmission (ToRoomButSender roomId) "classroom-session-updated"
                (SessionBody sessionId session)]))).
Proof.
  intros bound now db socket. cbn zeta. unfold handleDisconnectOf.
  destruct (truthy (sd_roomId (sk_data socket))) eqn:Hroom;
    destruct (truthy (sd_userId (sk_data socket))) eqn:Huser;
    destruct (truthy (sd_sessionId (sk_data socket))) eqn:Hsession;
    cbn [andb].
  2-8: (split; [reflexivity |]); (split; [constructor |]);
       (split; [reflexivity |]);
       intros roomId userId sessionId Hr Hr' Hu Hu' Hs Hs';
       rewrite Hr in Hroom; rewrite Hu in Huser; rewrite Hs in Hsession;
       rewrite ?(truthy_nonempty _ Hr') in Hroom;
       rewrite ?(truthy_nonempty _ Hu') in Huser;
       rewrite ?(truthy_nonempty _ Hs') in Hsession; discriminate.
  apply truthy_Some in Hroom as (roomId & Hr & _).
  apply truthy_Some in Huser as (userId & Hu & _).
  apply truthy_Some in Hsession as (sessionId & Hs & _).
  rewrite Hr, Hu, Hs. unfold callLeaveClassSessionOf.
  destruct (bound db now sessionId userId) as [error | [session db']] eqn:Hleave;
    cbn.
  - split; [reflexivity |]. split; [constructor |]. split.
    + intros [? | [? | ?]]; discriminate.
    + intros roomId' userId' sessionId' [= <-] _ [= <-] _ [= <-] _.
      rewrite Hleave. split; [reflexivity |]. discriminate.
  - split; [reflexivity |]. split; [| split].
    + constructor; [discriminate | constructor].
    + intros [? | [? | ?]]; discriminate.
    + intros roomId' userId' sessionId' [= <-] _ [= <-] _ [= <-] _.
      rewrite Hleave. split; [discriminate |].
      now intros session' db'' [= <- <-].
Qed.

(** X30.  A teacher's socket that starts a class and then ends it: the session
    is stored under the new id, ended at the time of the second call and
    without current participants; in the draft it was started with an
    empty history and the schema's default date.  The socket keeps the
    session id, and each handler tells the room twice. *)
Theorem handleStartClass_then_handleEndClass loaded now oid db socket roomId userId :
  validateTeacherPermission socket = true ->
  sd_roomId (sk_data socket) = Some roomId ->
  sd_userId (sk_data socket) = Some userId ->
  exists db1 socket1 started db2 ended,
    handleStartClass loaded oid db socket
      = (db1, socket1,
         [mkEmission (ToRoom roomId) "class-session-updated" (SessionBody oid started);
          mkEmission (ToRoom roomId) "class-room-created"
            (StartedBody "Class Room has started" userId)]) /\
    sd_sessionId (sk_data socket1) = Some oid /\
    handleEndClass now db1 socket1
      = (db2, socket1,
         [mkEmission (ToRoom roomId) "class-session-updated" (SessionBody oid ended);
          mkEmission (ToRoom roomId) "class-session-ended"
            (EndedBody "Class session has ended" userId)]) /\
    ClassSession_findById db2 oid = Some ended /\
    ended = {| startedAt := Some loaded; endedAt := Some now;
               participantsHistory := []; currentParticipants := [];
               classRoomId := Some roomId; s_eventLog := [] |}.
Proof.
  intros Hvalid Hroom Huser.
  unfold handleStartClass. rewrite Hvalid, Hroom, Huser. cbn [negb].
  unfold Earlier.startClass. cbn zeta.
  do 5 eexists. split; [reflexivity |]. split; [reflexivity |].
  unfold handleEndClass.
  assert (validateTeacherPermission
            (mkSocket (mkSocketData (Some userId) (Some roomId)
                                    (sd_role (sk_data socket)) (Some oid))
                      (sk_rooms socket)) = true) as ->.
  { unfold validateTeacherPermission in *. cbn.
    now rewrite Hroom, Huser in Hvalid. }
  cbn [negb sk_data sd_roomId sd_userId sd_sessionId callEndClass].
  unfold endClass. rewrite ClassSession_findById_save.
  cbn. split; [reflexivity |]. split; [| reflexivity].
  apply lookup_insert_eq.
Qed.

(** * The further properties on the databases of the examples *)

Lemma joinClassroom_saved_witness :
  exists c',
    ClassRoom_findById testDbJoined "r1" = Some c' /\
    participantHistory c' = [Some "p1"] /\
    c_eventLog c' = [].
Proof.
  destruct (joinClassroom_saved ClassRoom_findParticipantByEmail testDb "p1"
              (mkIJoinClassRoom "r1" alice) testRoom aliceRow testDbJoined
              eq_refl eq_refl)
    as (c' & Hc & Hhistory & _ & _ & Hlog & _).
  exists c'. split; [exact Hc |]. split; [exact Hhistory | exact Hlog].
Defined.

Lemma joinClassroom_finds_or_creates_witness :
  Participant_findOne testDbJoined "a@example.com" = Some aliceRow /\
  participants testDbJoined = participants testDb ++ [aliceRow].
Proof.
  destruct (joinClassroom_finds_or_creates ClassRoom_findParticipantByEmail
              testDb "p1" (mkIJoinClassRoom "r1" alice) aliceRow testDbJoined
              eq_refl)
    as (_ & Hnew & Hfound).
  split; [exact Hfound |]. apply (Hnew eq_refl).
Defined.

Lemma joinClassroom_frame_witness :
  classSessions testDbJoined = classSessions testDb /\
  eventLogs testDbJoined = eventLogs testDb.
Proof.
  destruct (joinClassroom_frame ClassRoom_findParticipantByEmail
              testDb "p1" (mkIJoinClassRoom "r1" alice) aliceRow testDbJoined
              eq_refl)
    as (_ & Hsessions & Hevents & _).
  split; assumption.
Defined.

Lemma create_then_joinClassroom_witness :
  statusCode (fst (create true emptyStore "r1" "rid" (mkICreateClassRoom "R")))
  = HTTP_CREATED /\
  data (fst (create true emptyStore "r1" "rid" (mkICreateClassRoom "R")))
  = Some "r1".
Proof.
  destruct (create_then_joinClassroom ClassRoom_findParticipantByEmail true
              emptyStore "r1" "rid" (mkICreateClassRoom "R") "p1" alice eq_refl)
    as (Hstatus & Hdata & _).
  split; assumption.
Defined.

Lemma endClass_again_witness :
  exists session' db2,
    endClass openSessionDbEnded 4000%Z "s1" = inr (session', db2) /\
    endedAt session' = Some 4000%Z.
Proof.
  destruct (endClass_again openSessionDb 3000%Z 4000%Z "s1" openSessionEnded
              openSessionDbEnded eq_refl)
    as (session' & db2 & Hend & _ & Hlater & _).
  exists session', db2. split; assumption.
Defined.

Lemma leaveClassSession_student_absent_witness :
  leaveClassSession openSessionDb 3000%Z "s1" "nobody" STUDENT
  = inr (openSession, openSessionDb).
Proof.
  apply (leaveClassSession_student_absent openSessionDb 3000%Z "s1" "nobody"
           openSession eq_refl).
  cbn. intros [H | [H | [H | []]]]; discriminate.
Defined.

Lemma leaveClassSession_student_idempotent_witness :
  leaveClassSession openSessionDbLeft 4000%Z "s1" "u1" STUDENT
  = inr (openSessionLeft, openSessionDbLeft).
Proof.
  apply (leaveClassSession_student_idempotent openSessionDb 3000%Z 4000%Z
           "s1" "u1" openSessionLeft openSessionDbLeft eq_refl).
Defined.

Lemma leaveClassSession_student_members_witness :
  ~ In (Some "u1") (currentParticipants openSessionLeft).
Proof.
  apply (leaveClassSession_student_members openSessionDb 3000%Z "s1" "u1"
           openSession openSessionLeft openSessionDbLeft eq_refl eq_refl).
Defined.


Lemma endClass_then_joinSessionViaSessionList_witness :
  exists result db2 session',
    joinSessionViaSessionList openSessionDbEnded "p1" "s1" alice
      = inr (result, db2) /\
    ClassSession_findById db2 "s1" = Some session' /\
    endedAt session' = Some 3000%Z /\
    currentParticipants session' = [pl_id alice].
Proof.
  apply (endClass_then_joinSessionViaSessionList openSessionDb 3000%Z "p1" "s1"
           alice openSessionEnded openSessionDbEnded ("r1", testRoom)
           eq_refl eq_refl).
Defined.

Lemma joinSessionViaSessionList_twice_witness :
  joinSessionViaSessionList staffDbJoined "p8" "s1" tinaPayload
  = inl AlreadyInSession.
Proof.
  apply (joinSessionViaSessionList_twice staffDb "p9" "p8" "s1" tinaPayload "t1"
           (tina, "r1") staffDbJoined eq_refl eq_refl eq_refl).
Defined.

Lemma endClass_unlists_witness :
  exists before after,
    activeSessionsList openSessionDb = inr before /\
    activeSessionsList openSessionDbEnded = inr after /\
    (forall listing,
       In listing after <-> In listing before /\ fst (fst listing) <> "s1").
Proof.
  do 2 eexists. split; [reflexivity |]. split; [reflexivity |].
  apply (endClass_unlists openSessionDb 3000%Z "s1" openSessionEnded
           openSessionDbEnded _ _ eq_refl eq_refl eq_refl).
Defined.

Lemma startClass_lists_witness :
  exists ofRoom,
    activeSessionsListWithRoomId
      (snd (startClass testDb 1000%Z "s9" "nowhere" "t1")) "nowhere" = inr ofRoom /\
    In ("s9", snd (fst (startClass testDb 1000%Z "s9" "nowhere" "t1")), None) ofRoom.
Proof.
  destruct (startClass_lists testDb 1000%Z "s9" "nowhere" "t1" eq_refl)
    as (before & after & ofRoom & _ & _ & Hlist & _ & Hnone & _).
  exists ofRoom. split; [exact Hlist |]. apply Hnone. reflexivity.
Defined.

Lemma findByClassSession_view_witness :
  Permutation (sv_teacherParticipant staffView ++ sv_studentParticipant staffView)
              (sv_currentParticipants staffView).
Proof.
  destruct (findByClassSession_view staffDb "s1" staffView eq_refl)
    as (session & classRoom & _ & _ & _ & _ & _ & _ & Hperm).
  exact Hperm.
Defined.

Lemma joinClassroom_then_findByClassRoomId_witness :
  exists state shown,
    findByClassRoomId testDbJoined "r1" = Some state /\
    p_id shown = "p1" /\
    In shown (pc_studentParticipant state).
Proof.
  apply (joinClassroom_then_findByClassRoomId ClassRoom_findParticipantByEmail
           testDb "p1" (mkIJoinClassRoom "r1" alice) aliceRow testDbJoined eq_refl).
Defined.

Lemma run_keeps_witness : keeps testDb testDbJoined.
Proof.
  apply (run_keeps ClassRoom_findParticipantByEmail true testDb testDbJoined).
  apply rtc_once.
  apply (step_joinClassroom _ _ _ _ "p1" (mkIJoinClassRoom "r1" alice) aliceRow).
  reflexivity.
Defined.

Lemma reachable_currentInHistory_witness : currentInHistory testDbJoined.
Proof.
  apply (reachable_currentInHistory ClassRoom_findParticipantByEmail true).
  apply (rtc_l _ _ testDb).
  - apply (step_create _ _ _ _ "r1" "rid" (mkICreateClassRoom "R")); reflexivity.
  - apply rtc_once.
    apply (step_joinClassroom _ _ _ _ "p1" (mkIJoinClassRoom "r1" alice) aliceRow).
    reflexivity.
Defined.

Lemma Earlier_leaveClassSession_ends_witness :
  Earlier.leaveClassSession openSessionDb 3000%Z "s1" "t1"
    = inr (draftSessionLeft, draftDbLeft) /\
  endClass openSessionDb 3000%Z "s1" = inr (draftSessionLeft, draftDbLeft) /\
  currentParticipants draftSessionLeft = [].
Proof.
  destruct (Earlier_leaveClassSession_ends openSessionDb 3000%Z "s1" "t1"
              openSession eq_refl)
    as (session & db' & Hleave & _ & _ & _ & _ & _ & _ & Hend & _).
  split; [| split; [| reflexivity]].
  - reflexivity.
  - rewrite Hend, <- Hleave. reflexivity.
Defined.

Lemma handleJoinClassroom_permission_witness :
  exists socket' emitted,
    handleJoinClassroom ClassRoom_findParticipantByEmail "p1" testDb newSocket
                        (mkIJoinClassRoom "r1" alice)
      = (testDbJoined, socket', emitted) /\
    sk_data socket' = mkSocketData (Some "p1") (Some "r1") (Some STUDENT) None /\
    handleStartClass 0%Z "s9" testDbJoined socket'
      = (testDbJoined, socket', [emitError "Only teachers can start the class"]).
Proof.
  destruct (handleJoinClassroom_permission ClassRoom_findParticipantByEmail
              "p1" testDb newSocket (mkIJoinClassRoom "r1" alice) aliceRow
              testDbJoined eq_refl)
    as (socket' & emitted & Hjoin & Hdata & _ & Hstudent & _).
  exists socket', emitted. split; [exact Hjoin |]. split; [exact Hdata |].
  apply (Hstudent eq_refl 0%Z 0%Z "s9").
Defined.

Lemma handleJoinClassroom_then_leave_witness :
  exists socket' emitted,
    handleJoinClassroom ClassRoom_findParticipantByEmail "p1" testDb newSocket
                        (mkIJoinClassRoom "r1" alice)
      = (testDbJoined, socket', emitted) /\
    handleLeaveClassroom 5000%Z testDbJoined socket'
      = (testDbJoined, socket', [emitError "Session does not exist"]).
Proof.
  apply (handleJoinClassroom_then_leave ClassRoom_findParticipantByEmail
           "p1" 5000%Z testDb newSocket (mkIJoinClassRoom "r1" alice) aliceRow
           testDbJoined eq_refl eq_refl); discriminate.
Defined.

Lemma handleLeaveClassroom_left_witness :
  exists socket',
    handleLeaveClassroom 3000%Z openSessionDb teacherSocketInSession
      = (draftDbLeft, socket',
         [mkEmission (ToRoomButSender "s1") "classroom-session-updated"
            (SessionBody "s1" draftSessionLeft);
          mkEmission ToSocket "leave-success"
            (MessageBody "Left classroom successfully")]) /\
    sk_data socket' = mkSocketData None None None (Some "s1") /\
    In "r1" (sk_rooms socket') /\
    handleLeaveClassroom 4000%Z draftDbLeft socket'
      = (draftDbLeft, socket', [emitError "Not in a classroom"]).
Proof.
  destruct (handleLeaveClassroom_left Earlier.leaveClassSession 3000%Z 4000%Z
              openSessionDb teacherSocketInSession "r1" "t1" "s1"
              draftSessionLeft draftDbLeft)
    as (socket' & Hleft & Hdata & Hrooms & _ & Hagain & _);
    try reflexivity; try discriminate.
  exists socket'. split; [exact Hleft |]. split; [exact Hdata |].
  split; [| exact Hagain].
  apply Hrooms; [discriminate |]. left. reflexivity.
Defined.

(** The same leave with the method of [src/src/app.ts] bound: the
    teacher is taken out of the session, which goes on. *)
Example handleLeaveClassroom_left_without_role :
  exists socket' session db1,
    handleLeaveClassroomOf leaveClassSessionWithoutRole 3000%Z openSessionDb
                           teacherSocketInSession
      = (db1, socket',
         [mkEmission (ToRoomButSender "s1") "classroom-session-updated"
            (SessionBody "s1" session);
          mkEmission ToSocket "leave-success"
            (MessageBody "Left classroom successfully")]) /\
    currentParticipants session = [Some "u1"; Some "u2"] /\
    endedAt session = None /\
    sk_data socket' = mkSocketData None None None (Some "s1").
Proof. do 3 eexists. split; [reflexivity |]. repeat split. Qed.

Lemma handleStartClass_then_handleEndClass_witness :
  exists db1 socket1 db2 ended,
    sd_sessionId (sk_data socket1) = Some "s9" /\
    fst (fst (handleStartClass 0%Z "s9" testDb teacherSocket)) = db1 /\
    fst (fst (handleEndClass 2000%Z db1 socket1)) = db2 /\
    ClassSession_findById db2 "s9" = Some ended /\
    endedAt ended = Some 2000%Z.
Proof.
  destruct (handleStartClass_then_handleEndClass 0%Z 2000%Z "s9" testDb
              teacherSocket "r1" "t1" eq_refl eq_refl eq_refl)
    as (db1 & socket1 & started & db2 & ended & Hstart & Hid & Hend & Hstored & Hshape).
  exists db1, socket1, db2, ended.
  split; [exact Hid |]. split; [now rewrite Hstart |].
  split; [now rewrite Hend |]. split; [exact Hstored |].
  now rewrite Hshape.
Defined.
